(** * Used-car analysis script: a shallow embedding of [cars_streamlit.py]

  The script is a straight-line pandas pipeline.  A data frame is a list
  of rows (records), a column operation is the same operation on every
  row, and a missing cell (NaN) is [None].  Characters are code points
  below 256.

  The arithmetic of the script is that of the libraries it calls, on
  binary64 values.  [Num.lib] is the signature of these operations and
  [Gen] is the numeric part of the script over any such library; what a
  statement says of an average or of a label, it says through them.
  [Pd.mean], [Pd.round] and the texts built from them are the same
  operations on exact rationals, the instance [Num.exact]: they decide
  which rows there are and whether an average is missing, not the digits
  of a binary64 result.  [Run] adds the errors that pandas raises on the
  type of a whole column. *)

From Stdlib Require Import List String Ascii Bool Arith ZArith.
From Stdlib Require Import QArith Qround Qabs Lia Lqa.
From Stdlib Require Import Sorted Permutation DecimalString.
From Stdlib Require OrderedTypeEx.
Import ListNotations.

Local Open Scope string_scope.

(** ** Python primitives *)

Module Py.

(** [str.isspace] on one character: TAB..CR, FS..US, SPACE, NEL, NBSP. *)
Definition isspace (c : ascii) : bool :=
  let n := N_of_ascii c in
  ((9 <=? n) && (n <=? 13) || (28 <=? n) && (n <=? 32)
   || (n =? 133) || (n =? 160))%N.

(** Closes the token being read, if there is one. *)
Definition flush (tok : string) (rest : list string) : list string :=
  match tok with
  | EmptyString => rest
  | _ => tok :: rest
  end.

(** Left-to-right scan of [str.split()] with no separator: [tok] is the
    token read so far, a whitespace character closes it, and runs of
    whitespace produce no empty token. *)
Fixpoint split_from (tok s : string) : list string :=
  match s with
  | EmptyString => flush tok []
  | String c rest =>
      if isspace c then flush tok (split_from "" rest)
      else split_from (tok ++ String c "") rest
  end.

Definition split (s : string) : list string := split_from "" s.

End Py.

(** ** pandas primitives *)

Module Pd.

(** [Series.str.split()]: a missing cell stays missing. *)
Definition str_split (x : option string) : option (list string) :=
  option_map Py.split x.

(** [Series.str.get(i)] for [i >= 0]: missing when the list is missing
    or shorter than [i + 1]. *)
Definition str_get (i : nat) (x : option (list string)) : option string :=
  match x with
  | Some toks => nth_error toks i
  | None => None
  end.

(** [+] on two object cells: concatenation, missing as soon as one side
    is missing. *)
Definition obj_add (a b : option string) : option string :=
  match a, b with
  | Some x, Some y => Some (x ++ y)
  | _, _ => None
  end.

(** [==] between an object cell and a selected value: a missing value
    equals nothing, itself included. *)
Definition eq_str (a b : option string) : bool :=
  match a, b with
  | Some x, Some y => String.eqb x y
  | _, _ => false
  end.

Definition eq_int (a b : option Z) : bool :=
  match a, b with
  | Some x, Some y => Z.eqb x y
  | _, _ => false
  end.

(** Identity of two cells as values, used by [unique]: all missing cells
    count as one value. *)
Definition same_str (a b : option string) : bool :=
  match a, b with
  | Some x, Some y => String.eqb x y
  | None, None => true
  | _, _ => false
  end.

Section Unique.
Context {A : Type} (eqb : A -> A -> bool).

(** [Series.unique()]: the distinct values in order of first
    appearance. *)
Fixpoint unique (l : list A) : list A :=
  match l with
  | [] => []
  | x :: t => x :: filter (fun y => negb (eqb x y)) (unique t)
  end.
End Unique.

Section Sort.
Context {A : Type} (before : A -> A -> bool).

(** [insert x l] puts [x] in front of the first element that does not
    go strictly before it. *)
Fixpoint insert (x : A) (l : list A) : list A :=
  match l with
  | [] => [x]
  | y :: t => if before y x then y :: insert x t else x :: l
  end.

(** Stable sort: elements neither of which goes strictly before the
    other keep their order. *)
Definition sort (l : list A) : list A := fold_right insert [] l.
End Sort.

(** *** Numbers *)

Local Open Scope Q_scope.

(** One step of the running sum and count of a mean that skips missing
    values. *)
Definition mean_step (acc : Q * nat) (x : option Q) : Q * nat :=
  match x with
  | Some v => (fst acc + v, S (snd acc))
  | None => acc
  end.

(** [Series.mean()] and the [mean] aggregation (skipna) on exact
    rationals: the sum of the present values over their count, missing
    when there is none.  The result is kept in lowest terms.  (The
    library computes in binary64, see [Num.lib].) *)
Definition mean (xs : list (option Q)) : option Q :=
  let acc := fold_left mean_step xs (0, 0%nat) in
  match snd acc with
  | O => None
  | S _ => Some (Qred (fst acc / inject_Z (Z.of_nat (snd acc))))
  end.

Definition times (k v : Q) : Q := Qred (v * k).

(** Element-wise product of a numeric column with a constant. *)
Definition scale (k : Q) (x : option Q) : option Q :=
  option_map (times k) x.

(** Nearest integer, ties to the even one. *)
Definition rint (x : Q) : Z :=
  let f := Qfloor x in
  match Qcompare (x - inject_Z f) (1 # 2) with
  | Lt => f
  | Gt => (f + 1)%Z
  | Eq => if Z.even f then f else (f + 1)%Z
  end.

Definition pow10 (d : nat) : Z := (10 ^ Z.of_nat d)%Z.

(** [numpy.around(v, d)] for [d >= 0] on exact rationals: scale by
    [10^d], round to the nearest integer, scale back. *)
Definition around (d : nat) (v : Q) : Q :=
  Qred (inject_Z (rint (v * inject_Z (pow10 d))) / inject_Z (pow10 d)).

(** [round(series, d)], element by element. *)
Definition round (x : option Q) (d : nat) : option Q :=
  option_map (around d) x.

Definition digits (n : Z) : string :=
  NilZero.string_of_uint (N.to_uint (Z.to_N n)).

(** At most [fuel] digits of the decimal expansion of [r], [0 <= r < 1],
    stopping when the expansion ends. *)
Fixpoint frac_digits (fuel : nat) (r : Q) : string :=
  match fuel with
  | O => ""
  | S fuel' =>
      if Qeq_bool r 0 then ""
      else
        let d := Qfloor (r * 10) in
        (digits d ++ frac_digits fuel' (r * 10 - inject_Z d))%string
  end.

(** Positional rendering of a float as [str] gives it for a value with a
    short decimal expansion: sign, integer part, point and the
    fractional digits, one [0] when there is none.  (The exponent form
    that Python uses from [1e16] on is outside the model, and a rational
    has no negative zero.) *)
Definition float_repr (v : Q) : string :=
  let a := Qabs v in
  let ip := Qfloor a in
  let fd := frac_digits 17 (a - inject_Z ip) in
  ((if Qle_bool 0 v then "" else "-") ++ digits ip ++ "."
   ++ (match fd with EmptyString => "0" | _ => fd end))%string.

(** [astype(str)] on a float column. *)
Definition astype_str (x : option Q) : string :=
  match x with
  | Some v => float_repr v
  | None => "nan"
  end.

(** The [.2f] format: two decimals, the last one rounded. *)
Definition format_2f (x : option Q) : string :=
  match x with
  | None => "nan"
  | Some v =>
      let k := Z.abs (rint (v * 100)) in
      let fr := digits (k mod 100) in
      ((if Qle_bool 0 v then "" else "-") ++ digits (k / 100) ++ "."
       ++ (if (k mod 100 <? 10)%Z then "0" ++ fr else fr))%string
  end.

(** Order of a descending sort with missing values last. *)
Definition desc_before (a b : option Q) : bool :=
  match a, b with
  | Some x, Some y => negb (Qle_bool x y)
  | Some _, None => true
  | None, _ => false
  end.

Section NLargest.
Context {R : Type} (col : R -> option Q).

(** [DataFrame.nlargest(n, col)] with the default [keep='first']: the
    rows in descending order of [col], rows with equal values in their
    original order, missing values last, cut to [n] rows. *)
Definition nlargest (n : nat) (rows : list R) : list R :=
  firstn n (sort (fun a b => desc_before (col a) (col b)) rows).
End NLargest.

Section Merge.
Context {L R O : Type} (on : L -> R -> bool)
        (matched : L -> R -> O) (unmatched : L -> O).

(** [pd.merge(left, right, how='left')]: the left rows in order, each
    with every right row of the same key, or once with missing right
    columns when no right row has its key. *)
Definition merge_left (left : list L) (right : list R) : list O :=
  flat_map
    (fun l =>
       match filter (on l) right with
       | [] => [unmatched l]
       | ms => map (matched l) ms
       end) left.
End Merge.

Section GroupBy.
Context {R K : Type} (key : R -> option K) (keqb kltb : K -> K -> bool).

Definition keys_of (rows : list R) : list K :=
  flat_map (fun r => match key r with Some k => [k] | None => [] end) rows.

Definition in_group (k : K) (r : R) : bool :=
  match key r with
  | Some k' => keqb k' k
  | None => false
  end.

(** [groupby(keys)] with the defaults [sort=True], [dropna=True]: one
    group per distinct key in ascending key order; a row with a
    missing key cell is in no group. *)
Definition groupby (rows : list R) : list (K * list R) :=
  map (fun k => (k, filter (in_group k) rows))
      (sort kltb (unique keqb (keys_of rows))).
End GroupBy.

End Pd.

(** ** The script *)

Module CityRow.
(** A row of [df_avg_price_by_city]. *)
Record t := mk {
  Location : string;
  Latitude : Q;
  Longitude : Q;
  Average_Price : option Q;
  Price_in_thousands : option Q;
  Price : string
}.
End CityRow.

Module BarRow.
(** A row of [df_avg_price_by_city_new] and of [df_top_5]. *)
Record t := mk {
  Location : string;
  Average_Price : option Q;
  Formatted_Price : option Q;
  Price_K : string
}.
End BarRow.

Module App.

(** The columns of [used_cars_data.csv] that the script reads.  [Name]
    and [Price] may be missing; [Year] and [Location] are complete
    columns. *)
Record Listing := mkListing {
  Name : option string;
  Year : Z;
  Price : option Q;
  Location : string
}.

(** A row of [cars_df] once [Brand] and [Model] are added. *)
Record Car := mkCar {
  listing : Listing;
  Brand : option string;
  Model : option string
}.

(** A row of [df_cars]: a car with the coordinates of its city. *)
Record CarGeo := mkCarGeo {
  car : Car;
  Latitude : option Q;
  Longitude : option Q
}.

(** Lines 36-37, on one row. *)
Definition with_brand_model (l : Listing) : Car :=
  let toks := Pd.str_split (Name l) in
  {| listing := l;
     Brand := Pd.str_get 0 toks;
     Model := Pd.obj_add (Pd.obj_add (Pd.str_get 1 toks) (Some " "))
                         (Pd.str_get 2 toks) |}.

Definition cars_df (csv : list Listing) : list Car :=
  map with_brand_model csv.

(** Lines 44-50. *)
Definition data_cordinates : list string * list Q * list Q :=
  (["Mumbai"; "Pune"; "Chennai"; "Coimbatore"; "Hyderabad"; "Jaipur";
    "Kochi"; "Kolkata"; "Delhi"; "Bangalore"; "Ahmedabad"],
   [19.0760; 18.5204; 13.0827; 11.0168; 17.3850; 26.9124; 9.9312;
    22.5726; 28.6139; 12.9716; 23.0225]%Q,
   [72.8777; 73.8567; 80.2707; 76.9558; 78.4867; 75.7873; 76.2673;
    88.3639; 77.2090; 77.5946; 72.5714]%Q).

Definition df_cordinates : list (string * Q * Q) :=
  let '(locs, lats, lons) := data_cordinates in
  combine (combine locs lats) lons.

(** Line 53. *)
Definition merge_with (coords : list (string * Q * Q)) (cars : list Car)
  : list CarGeo :=
  Pd.merge_left
    (fun c e => String.eqb (Location (listing c)) (fst (fst e)))
    (fun c e => {| car := c; Latitude := Some (snd (fst e));
                   Longitude := Some (snd e) |})
    (fun c => {| car := c; Latitude := None; Longitude := None |})
    cars coords.

Definition df_cars (csv : list Listing) : list CarGeo :=
  merge_with df_cordinates (cars_df csv).

(** The grouping key of line 56. *)
Definition city_key (r : CarGeo) : option (string * Q * Q) :=
  match Latitude r, Longitude r with
  | Some la, Some lo => Some (Location (listing (car r)), la, lo)
  | _, _ => None
  end.

Definition city_key_eqb (a b : string * Q * Q) : bool :=
  String.eqb (fst (fst a)) (fst (fst b))
  && Qeq_bool (snd (fst a)) (snd (fst b)) && Qeq_bool (snd a) (snd b).

Definition city_key_ltb (a b : string * Q * Q) : bool :=
  match String.compare (fst (fst a)) (fst (fst b)) with
  | Lt => true
  | Gt => false
  | Eq =>
      match Qcompare (snd (fst a)) (snd (fst b)) with
      | Lt => true
      | Gt => false
      | Eq => match Qcompare (snd a) (snd b) with Lt => true | _ => false end
      end
  end.

(** Lines 56-61 on one group. *)
Definition city_row (g : (string * Q * Q) * list CarGeo) : CityRow.t :=
  let avg := Pd.mean (map (fun r => Price (listing (car r))) (snd g)) in
  let thousands := Pd.round (Pd.scale 100 avg) 1 in
  {| CityRow.Location := fst (fst (fst g));
     CityRow.Latitude := snd (fst (fst g));
     CityRow.Longitude := snd (fst g);
     CityRow.Average_Price := avg;
     CityRow.Price_in_thousands := thousands;
     CityRow.Price := Pd.astype_str thousands ++ "K" |}.

Definition avg_price_by_city (cars : list CarGeo) : list CityRow.t :=
  map city_row (Pd.groupby city_key city_key_eqb city_key_ltb cars).

Definition df_avg_price_by_city (csv : list Listing) : list CityRow.t :=
  avg_price_by_city (df_cars csv).

(** Lines 85-87: the options offered by the three select boxes. *)
Definition brand_options (csv : list Listing) : list (option string) :=
  Pd.unique Pd.same_str (map Brand (cars_df csv)).

Definition model_options (csv : list Listing) (selected_Brand : option string)
  : list (option string) :=
  Pd.unique Pd.same_str
    (map Model
       (filter (fun c => Pd.eq_str (Brand c) selected_Brand) (cars_df csv))).

Definition year_options (csv : list Listing)
           (selected_Brand selected_Model : option string) : list Z :=
  Pd.unique Z.eqb
    (map (fun c => Year (listing c))
       (filter (fun c => Pd.eq_str (Brand c) selected_Brand
                         && Pd.eq_str (Model c) selected_Model)
               (cars_df csv))).

(** Line 90.  A selection is [None] when its select box had no option
    (or offered a missing cell, which was chosen). *)
Definition selects (selected_Brand selected_Model : option string)
           (selected_Year : option Z) (c : Car) : bool :=
  Pd.eq_str (Brand c) selected_Brand && Pd.eq_str (Model c) selected_Model
  && Pd.eq_int (Some (Year (listing c))) selected_Year.

Definition cars_df_filtered (csv : list Listing)
           (selected_Brand selected_Model : option string)
           (selected_Year : option Z) : list Car :=
  filter (selects selected_Brand selected_Model selected_Year) (cars_df csv).

(** Line 93. *)
Definition average_price (csv : list Listing)
           (selected_Brand selected_Model : option string)
           (selected_Year : option Z) : option Q :=
  Pd.mean (map (fun c => Price (listing c))
               (cars_df_filtered csv selected_Brand selected_Model
                                 selected_Year)).

(** Line 96: the value put on display and the text around it. *)
Definition displayed_price (avg : option Q) : option Q :=
  Pd.scale 100000 avg.

Definition price_message (avg : option Q) : string :=
  "**The average price of the selected car is: "
  ++ Pd.format_2f (displayed_price avg) ++ " INR**".

(** Lines 100-105 on one group. *)
Definition bar_row (g : string * list Car) : BarRow.t :=
  let avg := Pd.mean (map (fun c => Price (listing c)) (snd g)) in
  let formatted := Pd.round (Pd.scale 100 avg) 2 in
  {| BarRow.Location := fst g;
     BarRow.Average_Price := avg;
     BarRow.Formatted_Price := formatted;
     BarRow.Price_K := Pd.astype_str formatted ++ "K" |}.

Definition avg_price_by_city_new (filtered : list Car) : list BarRow.t :=
  map bar_row
      (Pd.groupby (fun c => Some (Location (listing c))) String.eqb
                  String.ltb filtered).

Definition df_avg_price_by_city_new (csv : list Listing)
           (selected_Brand selected_Model : option string)
           (selected_Year : option Z) : list BarRow.t :=
  avg_price_by_city_new
    (cars_df_filtered csv selected_Brand selected_Model selected_Year).

(** Line 108. *)
Definition top_5 (rows : list BarRow.t) : list BarRow.t :=
  Pd.nlargest BarRow.Average_Price 5 rows.

Definition df_top_5 (csv : list Listing)
           (selected_Brand selected_Model : option string)
           (selected_Year : option Z) : list BarRow.t :=
  top_5 (df_avg_price_by_city_new csv selected_Brand selected_Model
                                  selected_Year).

(** Line 40. *)
Definition df_cities (csv : list Listing) : list string :=
  Pd.unique String.eqb (map (fun c => Location (listing c)) (cars_df csv)).

End App.

(** ** Vocabulary of the statements *)

Module Spec.

Fixpoint no_space (s : string) : bool :=
  match s with
  | EmptyString => true
  | String c rest => negb (Py.isspace c) && no_space rest
  end.

(** In a sorted list no element goes strictly before an earlier one. *)
Definition not_after {A : Type} (before : A -> A -> bool) (a b : A) : Prop :=
  before b a = false.

(** A whitespace-delimited token: at least one character, none of them
    whitespace. *)
Definition token (s : string) : Prop := s <> "" /\ no_space s = true.

(** The model that treating a missing token as the empty string would
    give. *)
Definition padded_model (name : string) : string :=
  nth 1 (Py.split name) "" ++ " " ++ nth 2 (Py.split name) "".

(** The values that are present in a column. *)
Definition present {A : Type} (xs : list (option A)) : list A :=
  flat_map (fun x => match x with Some v => [v] | None => [] end) xs.

Definition Qsum (xs : list Q) : Q := fold_right Qplus 0%Q xs.

Definition arith_mean (xs : list Q) : Q :=
  (Qsum xs / inject_Z (Z.of_nat (List.length xs)))%Q.

(** [m] is the mean of the prices that are there: missing when there is
    none, their arithmetic mean otherwise. *)
Definition is_mean_of (m : option Q) (prices : list (option Q)) : Prop :=
  match present prices with
  | [] => m = None
  | ps => exists a, m = Some a /\ (a == arith_mean ps)%Q
  end.

(** Descending order of averages, the missing ones last. *)
Definition avg_ge (a b : option Q) : Prop :=
  match a, b with
  | Some x, Some y => (y <= x)%Q
  | _, None => True
  | None, Some _ => False
  end.

Definition avg_order (a b : BarRow.t) : Prop :=
  avg_ge (BarRow.Average_Price a) (BarRow.Average_Price b).

(** The order that [nlargest] sorts the bars by. *)
Definition by_avg (a b : BarRow.t) : bool :=
  Pd.desc_before (BarRow.Average_Price a) (BarRow.Average_Price b).

Definition same_avg (a b : option Q) : bool :=
  match a, b with
  | Some x, Some y => Qeq_bool x y
  | None, None => true
  | _, _ => false
  end.

(** [a] occurs somewhere before [b] in [l]. *)
Definition precedes {A : Type} (a b : A) (l : list A) : Prop :=
  exists l1 l2 l3, l = (l1 ++ a :: l2 ++ b :: l3)%list.

(** The car has exactly the selected brand, model and year. *)
Definition matches (b m : string) (y : Z) (c : App.Car) : Prop :=
  App.Brand c = Some b /\ App.Model c = Some m /\ App.Year (App.listing c) = y.

(** The city is a row of the coordinate table. *)
Definition mapped (loc : string) : Prop :=
  In loc (fst (fst App.data_cordinates)).

(** The row of a coordinate table for a city, if it has one. *)
Definition coords_of (coords : list (string * Q * Q)) (loc : string)
  : option (string * Q * Q) :=
  find (fun e => String.eqb loc (fst (fst e))) coords.

(** A car with the coordinates that the table has for its city. *)
Definition with_coords (coords : list (string * Q * Q)) (c : App.Car)
  : App.CarGeo :=
  match coords_of coords (App.Location (App.listing c)) with
  | Some e => App.mkCarGeo c (Some (snd (fst e))) (Some (snd e))
  | None => App.mkCarGeo c None None
  end.

(** The row has all the cells of its grouping key. *)
Definition has_key {R K : Type} (key : R -> option K) (r : R) : bool :=
  match key r with Some _ => true | None => false end.

Definition mappedb (loc : string) : bool :=
  existsb (String.eqb loc) (fst (fst App.data_cordinates)).



(** Every character of the text is whitespace. *)
Fixpoint blank (s : string) : bool :=
  match s with
  | EmptyString => true
  | String c rest => Py.isspace c && blank rest
  end.

(** Strictly ascending order of texts. *)
Definition ascending (l : list string) : Prop :=
  StronglySorted (fun a b => String.ltb a b = true) l.

(** Some listing has a name. *)
Definition has_name (csv : list App.Listing) : Prop :=
  exists l name, In l csv /\ App.Name l = Some name.

(** Some listing has a name of two tokens or more. *)
Definition has_second_token (csv : list App.Listing) : Prop :=
  exists l name,
    In l csv /\ App.Name l = Some name
    /\ (2 <= List.length (Py.split name))%nat.

End Spec.

(** ** Sample data *)

Module Ex.

Definition wagon_r_mumbai : App.Listing :=
  App.mkListing (Some "Maruti Wagon R LXI CNG") 2015 (Some 4.5%Q) "Mumbai".

Definition wagon_r_pune : App.Listing :=
  App.mkListing (Some "Maruti Wagon R VXI") 2015 (Some 5.5%Q) "Pune".

Definition corolla : App.Listing :=
  App.mkListing (Some "Toyota Corolla") 2012 (Some 6%Q) "Goa".

Definition city : App.Listing :=
  App.mkListing (Some "Honda City 1.5 V") 2012 None "Pune".

Definition a4_mumbai : App.Listing :=
  App.mkListing (Some "Audi A4 New 2.0") 2013 (Some 17.74%Q) "Mumbai".

Definition a4_delhi : App.Listing :=
  App.mkListing (Some "Audi A4 New 2.0") 2013 (Some 1.2312%Q) "Delhi".

Definition a4_kochi : App.Listing :=
  App.mkListing (Some "Audi A4 New 2.0") 2013 (Some 17.74%Q) "Kochi".

Definition csv : list App.Listing :=
  [wagon_r_mumbai; wagon_r_pune; corolla; city; a4_mumbai; a4_delhi;
   a4_kochi].

(** The two-listing data set of the worked example on the filtered
    average. *)
Definition wagon_rs : list App.Listing :=
  [ App.mkListing (Some "Maruti Wagon R") 2015 (Some 4.5%Q) "Mumbai";
    App.mkListing (Some "Maruti Wagon R") 2015 (Some 5.5%Q) "Pune" ].

(** The bars of the Audi A4 of 2013 in [csv], in the order of
    [df_avg_price_by_city_new]. *)
Definition delhi_bar : BarRow.t :=
  BarRow.mk "Delhi" (Some (1539 # 1250)%Q) (Some (3078 # 25)%Q) "123.12K".

Definition kochi_bar : BarRow.t :=
  BarRow.mk "Kochi" (Some (887 # 50)%Q) (Some 1774%Q) "1774.0K".

Definition mumbai_bar : BarRow.t :=
  BarRow.mk "Mumbai" (Some (887 # 50)%Q) (Some 1774%Q) "1774.0K".

End Ex.

(** ** Errors of a run *)

Module Run.

Inductive exn : Type := AttributeError | TypeError.

(** What the evaluation of a line comes to. *)
Inductive outcome (A : Type) : Type :=
| Returned (a : A)
| Raised (e : exn).

Arguments Returned {A} a.
Arguments Raised {A} e.

Definition bind {A B : Type} (c : outcome A) (k : A -> outcome B)
  : outcome B :=
  match c with
  | Returned a => k a
  | Raised e => Raised e
  end.

(** The type that pandas gives a column of texts and missing cells: a
    column that has rows and only missing cells is a float64 column,
    any other one (with a text in it, or without rows) is an object
    column.  (The cells of [Name] that are there are texts: a file in
    which every name is a numeral is no [list App.Listing].) *)
Definition is_float64 {A : Type} (col : list (option A)) : bool :=
  match col with
  | [] => false
  | _ => forallb (fun x => match x with Some _ => false | None => true end)
                 col
  end.

(** The [.str] accessor: AttributeError on a column that is not one of
    texts. *)
Definition str_accessor (col : list (option string)) : outcome unit :=
  if is_float64 col then Raised AttributeError else Returned tt.

(** [column + " "]: TypeError on a float64 column. *)
Definition add_text (col : list (option string)) : outcome unit :=
  if is_float64 col then Raised TypeError else Returned tt.

(** Lines 36-37 as they run: the accessor on [Name], then the sum that
    starts with the column of second tokens. *)
Definition cars_df (csv : list App.Listing) : outcome (list App.Car) :=
  bind (str_accessor (map App.Name csv)) (fun _ =>
  bind (add_text
          (map (fun l => Pd.str_get 1 (Pd.str_split (App.Name l))) csv))
       (fun _ => Returned (App.cars_df csv))).

(** [nlargest] refuses a column of object type with TypeError.  The
    column of averages has the type of the price column, which is
    object for data without rows and float64 otherwise. *)
Definition nlargest_dtype {A : Type} (data : list A) : outcome unit :=
  match data with
  | [] => Raised TypeError
  | _ => Returned tt
  end.

End Run.

(** ** The numeric library *)

Module Num.

(** The operations on binary64 values that the script calls in pandas,
    numpy and Python.  They are no code of the script, and are taken as
    they are. *)
Record lib : Type := mk {
  float : Type;
  (** [read_csv] on a price cell: the decimal as binary64, NaN for an
      empty cell. *)
  of_csv : option Q -> float;
  (** The [mean] aggregation of [groupby] (lines 56, 100). *)
  group_mean : list float -> float;
  (** [Series.mean()] (line 93). *)
  series_mean : list float -> float;
  (** The product with an integer constant (lines 60, 96, 104). *)
  times : float -> Z -> float;
  (** [round(column, d)] (lines 60, 104). *)
  round : float -> nat -> float;
  (** [astype(str)] (lines 61, 105). *)
  astype_str : float -> string;
  (** The [.2f] format (line 96). *)
  format_2f : float -> string;
  (** The number that a value is, none for NaN: [nlargest] (line 108)
      orders by it. *)
  value : float -> option Q
}.

(** The same operations on exact rationals. *)
Definition exact : lib :=
  {| float := option Q;
     of_csv := fun x => x;
     group_mean := Pd.mean;
     series_mean := Pd.mean;
     times := fun x k => Pd.scale (inject_Z k) x;
     round := Pd.round;
     astype_str := Pd.astype_str;
     format_2f := Pd.format_2f;
     value := fun x => x |}.

End Num.

Module FCityRow.
(** A row of [df_avg_price_by_city] with averages of type [F]. *)
Record t (F : Type) := mk {
  Location : string;
  Latitude : Q;
  Longitude : Q;
  Average_Price : F;
  Price_in_thousands : F;
  Price : string
}.
Arguments mk {F}.
Arguments Location {F}.
Arguments Latitude {F}.
Arguments Longitude {F}.
Arguments Average_Price {F}.
Arguments Price_in_thousands {F}.
Arguments Price {F}.
End FCityRow.

Module FBarRow.
(** A row of [df_avg_price_by_city_new] with averages of type [F]. *)
Record t (F : Type) := mk {
  Location : string;
  Average_Price : F;
  Formatted_Price : F;
  Price_K : string
}.
Arguments mk {F}.
Arguments Location {F}.
Arguments Average_Price {F}.
Arguments Formatted_Price {F}.
Arguments Price_K {F}.
End FBarRow.

(** ** The numeric part of the script over a numeric library *)

Module Gen.
Section WithLibrary.
Variable L : Num.lib.

(** The price column of some rows, as [read_csv] holds it. *)
Definition prices (cells : list (option Q)) : list (Num.float L) :=
  map (Num.of_csv L) cells.

(** Lines 56-61 on one group. *)
Definition city_row (g : (string * Q * Q) * list App.CarGeo)
  : FCityRow.t (Num.float L) :=
  let avg :=
    Num.group_mean L
      (prices (map (fun r => App.Price (App.listing (App.car r))) (snd g)))
  in
  let thousands := Num.round L (Num.times L avg 100) 1 in
  {| FCityRow.Location := fst (fst (fst g));
     FCityRow.Latitude := snd (fst (fst g));
     FCityRow.Longitude := snd (fst g);
     FCityRow.Average_Price := avg;
     FCityRow.Price_in_thousands := thousands;
     FCityRow.Price := Num.astype_str L thousands ++ "K" |}.

Definition df_avg_price_by_city (csv : list App.Listing)
  : list (FCityRow.t (Num.float L)) :=
  map city_row
      (Pd.groupby App.city_key App.city_key_eqb App.city_key_ltb
                  (App.df_cars csv)).

(** Line 93. *)
Definition average_price (csv : list App.Listing)
           (selected_Brand selected_Model : option string)
           (selected_Year : option Z) : Num.float L :=
  Num.series_mean L
    (prices (map (fun c => App.Price (App.listing c))
                 (App.cars_df_filtered csv selected_Brand selected_Model
                                       selected_Year))).

(** Line 96. *)
Definition displayed_price (avg : Num.float L) : Num.float L :=
  Num.times L avg 100000.

Definition price_message (avg : Num.float L) : string :=
  "**The average price of the selected car is: "
  ++ Num.format_2f L (displayed_price avg) ++ " INR**".

(** Lines 100-105 on one group. *)
Definition bar_row (g : string * list App.Car) : FBarRow.t (Num.float L) :=
  let avg :=
    Num.group_mean L
      (prices (map (fun c => App.Price (App.listing c)) (snd g)))
  in
  let formatted := Num.round L (Num.times L avg 100) 2 in
  {| FBarRow.Location := fst g;
     FBarRow.Average_Price := avg;
     FBarRow.Formatted_Price := formatted;
     FBarRow.Price_K := Num.astype_str L formatted ++ "K" |}.

Definition df_avg_price_by_city_new (csv : list App.Listing)
           (selected_Brand selected_Model : option string)
           (selected_Year : option Z) : list (FBarRow.t (Num.float L)) :=
  map bar_row
      (Pd.groupby (fun c => Some (App.Location (App.listing c))) String.eqb
                  String.ltb
                  (App.cars_df_filtered csv selected_Brand selected_Model
                                        selected_Year)).

(** The order that [nlargest] sorts the bars by. *)
Definition by_avg (a b : FBarRow.t (Num.float L)) : bool :=
  Pd.desc_before (Num.value L (FBarRow.Average_Price a))
                 (Num.value L (FBarRow.Average_Price b)).

(** Descending order of averages, NaN last. *)
Definition avg_order (a b : FBarRow.t (Num.float L)) : Prop :=
  Spec.avg_ge (Num.value L (FBarRow.Average_Price a))
              (Num.value L (FBarRow.Average_Price b)).

(** [nlargest(5, 'Average_Price')] on a frame whose averages are
    floats. *)
Definition top_5 (rows : list (FBarRow.t (Num.float L)))
  : list (FBarRow.t (Num.float L)) :=
  Pd.nlargest (fun r => Num.value L (FBarRow.Average_Price r)) 5 rows.

(** Line 108 as it runs: lines 36-37 come first, and [nlargest] looks at
    the type of the column before anything else. *)
Definition df_top_5 (csv : list App.Listing)
           (selected_Brand selected_Model : option string)
           (selected_Year : option Z)
  : Run.outcome (list (FBarRow.t (Num.float L))) :=
  Run.bind (Run.cars_df csv) (fun _ =>
  Run.bind (Run.nlargest_dtype csv) (fun _ =>
  Run.Returned
    (top_5 (df_avg_price_by_city_new csv selected_Brand selected_Model
                                     selected_Year)))).

End WithLibrary.
End Gen.

(** ** Tokens *)

Section Tokens.

Lemma append_nil_r (s : string) : s ++ "" = s.
Proof. induction s; simpl; congruence. Qed.

Lemma append_assoc (a b c : string) : (a ++ b) ++ c = a ++ (b ++ c).
Proof. induction a; simpl; congruence. Qed.

Lemma no_space_app (a b : string) :
  Spec.no_space (a ++ b) = Spec.no_space a && Spec.no_space b.
Proof.
  induction a as [|c a IH]; simpl; [reflexivity|].
  rewrite IH. now rewrite andb_assoc.
Qed.

Lemma flush_tokens (tok : string) (rest : list string) :
  Spec.no_space tok = true ->
  Forall Spec.token rest -> Forall Spec.token (Py.flush tok rest).
Proof.
  intros Htok Hrest. destruct tok as [|c tok]; simpl; [assumption|].
  constructor; [split; [discriminate | assumption] | assumption].
Qed.

(** Every element that the scan produces is a token. *)
Lemma split_from_tokens (s : string) :
  forall tok, Spec.no_space tok = true ->
              Forall Spec.token (Py.split_from tok s).
Proof.
  induction s as [|c s IH]; intros tok Htok; simpl.
  - apply flush_tokens; [assumption | constructor].
  - destruct (Py.isspace c) eqn:Hc.
    + apply flush_tokens; [assumption | now apply IH].
    + apply IH. rewrite no_space_app, Htok. simpl. now rewrite Hc.
Qed.

Lemma split_tokens (s : string) : Forall Spec.token (Py.split s).
Proof. now apply split_from_tokens. Qed.

(** Reading a whitespace-free word extends the current token by it. *)
Lemma split_from_word (w : string) :
  forall tok s, Spec.no_space w = true ->
                Py.split_from tok (w ++ s) = Py.split_from (tok ++ w) s.
Proof.
  induction w as [|c w IH]; intros tok s Hw; simpl.
  - now rewrite append_nil_r.
  - simpl in Hw. apply andb_prop in Hw as [Hc Hw].
    apply negb_true_iff in Hc. rewrite Hc, IH by assumption.
    now rewrite append_assoc.
Qed.

(** Tokens written one space apart are read back as they are. *)
Lemma split_concat (toks : list string) :
  Forall Spec.token toks -> Py.split (String.concat " " toks) = toks.
Proof.
  unfold Py.split. induction 1 as [|t toks [Hne Hns] Htoks IH]; [reflexivity|].
  destruct toks as [|u toks].
  - simpl. rewrite <- (append_nil_r t) at 1.
    rewrite split_from_word by assumption. simpl.
    destruct t; [congruence | reflexivity].
  - change (String.concat " " (t :: u :: toks))
      with (t ++ " " ++ String.concat " " (u :: toks)).
    rewrite split_from_word by assumption.
    change (" " ++ String.concat " " (u :: toks))
      with (String " " (String.concat " " (u :: toks))).
    cbn [Py.split_from append].
    change (Py.isspace " ") with true. cbv iota.
    rewrite IH. destruct t; [congruence | reflexivity].
Qed.

Example split_skips_runs_of_whitespace :
  Py.split "  Maruti   Wagon R LXI " = ["Maruti"; "Wagon"; "R"; "LXI"].
Proof. reflexivity. Qed.

Example split_of_blank_name : Py.split "   " = [].
Proof. reflexivity. Qed.

End Tokens.

(** ** Distinct values, stable sorting and selection of the first rows *)

Section UniqueFacts.
Context {A : Type} (eqb : A -> A -> bool).
Local Open Scope list_scope.

Lemma unique_incl (l : list A) (x : A) : In x (Pd.unique eqb l) -> In x l.
Proof.
  revert x. induction l as [|a l IH]; simpl; intros x Hx; [assumption|].
  destruct Hx as [Hx | Hx]; [now left | right].
  apply filter_In in Hx. now apply IH.
Qed.

(** Where [eqb] decides equality on the elements of [l], [unique] keeps
    exactly one copy of each. *)
Lemma unique_In (l : list A) :
  (forall a b, In a l -> In b l -> (eqb a b = true <-> a = b)) ->
  forall x, In x (Pd.unique eqb l) <-> In x l.
Proof.
  intros Heq x. split; [apply unique_incl|].
  induction l as [|a l IH]; simpl; [auto|]. intros [Hx | Hx]; [now left|].
  destruct (eqb a x) eqn:E.
  - left. apply (Heq a x); simpl; auto.
  - right. apply filter_In. split; [|now rewrite E].
    apply IH; [|assumption]. intros; apply Heq; simpl; auto.
Qed.

Lemma unique_NoDup (l : list A) :
  (forall a, In a l -> eqb a a = true) -> NoDup (Pd.unique eqb l).
Proof.
  intros Hrefl. induction l as [|a l IH]; simpl; constructor.
  - intros Hin. apply filter_In in Hin as [_ Hin].
    rewrite Hrefl in Hin by (simpl; auto). discriminate.
  - apply NoDup_filter, IH. intros; apply Hrefl; simpl; auto.
Qed.
End UniqueFacts.

Section SortFacts.
Context {A : Type} (before : A -> A -> bool).
Local Open Scope list_scope.

Lemma insert_perm (x : A) (l : list A) :
  Permutation (Pd.insert before x l) (x :: l).
Proof.
  induction l as [|y l IH]; simpl; [reflexivity|].
  destruct (before y x); [|reflexivity].
  rewrite IH. apply perm_swap.
Qed.

Lemma sort_perm (l : list A) : Permutation (Pd.sort before l) l.
Proof.
  induction l as [|x l IH]; simpl; [reflexivity|].
  rewrite insert_perm. now constructor.
Qed.

Lemma sort_In (l : list A) (x : A) : In x (Pd.sort before l) <-> In x l.
Proof.
  split; apply Permutation_in;
    [|symmetry]; apply sort_perm.
Qed.

Lemma sort_length (l : list A) :
  List.length (Pd.sort before l) = List.length l.
Proof. apply Permutation_length, sort_perm. Qed.

Lemma sort_NoDup (l : list A) : NoDup l -> NoDup (Pd.sort before l).
Proof.
  apply Permutation_NoDup. symmetry. apply sort_perm.
Qed.

(** Stability.  A class [p] whose members never go strictly before one
    another comes out of the sort in the order it went in. *)
Section Stable.
Variable p : A -> bool.
Hypothesis p_ties :
  forall x y, p x = true -> p y = true -> before y x = false.

Lemma insert_filter (x : A) (l : list A) :
  filter p (Pd.insert before x l) = filter p (x :: l).
Proof.
  induction l as [|y l IH]; [reflexivity|].
  cbn [Pd.insert]. destruct (before y x) eqn:E; [|reflexivity].
  cbn [filter] in *. rewrite IH.
  destruct (p x) eqn:Px, (p y) eqn:Py; try reflexivity.
  rewrite p_ties in E by assumption. discriminate.
Qed.

Lemma sort_filter (l : list A) : filter p (Pd.sort before l) = filter p l.
Proof.
  induction l as [|x l IH]; [reflexivity|].
  cbn [Pd.sort fold_right]. rewrite insert_filter.
  cbn [filter]. fold (Pd.sort before l). now rewrite IH.
Qed.
End Stable.

(** Sortedness, for an order in which "not strictly before" is
    transitive. *)
Section Sorted.
Hypothesis before_asym :
  forall x y, before x y = true -> before y x = false.
Hypothesis before_negtrans :
  forall x y z, before x y = false -> before y z = false ->
                before x z = false.

Lemma insert_sorted (x : A) (l : list A) :
  StronglySorted (Spec.not_after before) l ->
  StronglySorted (Spec.not_after before) (Pd.insert before x l).
Proof.
  induction 1 as [|y l Hl IH Hy]; simpl.
  - repeat constructor.
  - destruct (before y x) eqn:E.
    + constructor; [assumption|].
      apply (Permutation_Forall
               (Permutation_sym (insert_perm x l))).
      constructor; [now apply before_asym | assumption].
    + constructor; [now constructor|].
      constructor; [assumption|].
      rewrite Forall_forall in *. intros z Hz.
      apply (before_negtrans z y x); [now apply Hy | assumption].
Qed.

Lemma sort_sorted (l : list A) :
  StronglySorted (Spec.not_after before) (Pd.sort before l).
Proof.
  induction l as [|x l IH]; simpl; [constructor | now apply insert_sorted].
Qed.
End Sorted.
End SortFacts.

Section PrefixFacts.
Context {A : Type}.
Local Open Scope list_scope.

Lemma firstn_sorted (R : A -> A -> Prop) (n : nat) (l : list A) :
  StronglySorted R l -> StronglySorted R (firstn n l).
Proof.
  intros Hl. revert n. induction Hl as [|x l Hl IH Hx]; intros [|n]; simpl;
    try constructor; [apply IH|].
  rewrite Forall_forall in *. intros y Hy. apply Hx.
  eapply In_nth_error in Hy as [i Hi].
  apply nth_error_In with (n := i).
  destruct (Nat.lt_ge_cases i n) as [Hlt | Hge].
  - now rewrite nth_error_firstn, (proj2 (Nat.ltb_lt i n) Hlt) in Hi.
  - rewrite nth_error_firstn in Hi.
    destruct (Nat.ltb_spec i n); [lia | discriminate].
Qed.

Lemma filter_firstn_prefix (p : A -> bool) (n : nat) (l : list A) :
  filter p l = filter p (firstn n l) ++ filter p (skipn n l).
Proof. now rewrite <- filter_app, firstn_skipn. Qed.

Lemma precedes_app_l (a b : A) (l r : list A) :
  Spec.precedes a b l -> Spec.precedes a b (l ++ r).
Proof.
  intros (l1 & l2 & l3 & ->). exists l1, l2, (l3 ++ r).
  now rewrite <- !app_assoc, <- !app_comm_cons, <- !app_assoc.
Qed.

Lemma precedes_filter (p : A -> bool) (a b : A) (l : list A) :
  Spec.precedes a b l -> p a = true -> p b = true ->
  Spec.precedes a b (filter p l).
Proof.
  intros (l1 & l2 & l3 & ->) Pa Pb.
  exists (filter p l1), (filter p l2), (filter p l3).
  rewrite filter_app. cbn [filter]. rewrite Pa, filter_app.
  cbn [filter]. now rewrite Pb.
Qed.

Lemma filter_eq_app (p : A -> bool) (l : list A) :
  forall u v, filter p l = u ++ v ->
              exists l1 l2, l = l1 ++ l2 /\ filter p l1 = u /\ filter p l2 = v.
Proof.
  induction l as [|x l IH]; intros u v H.
  - symmetry in H. apply app_eq_nil in H as [-> ->]. now exists [], [].
  - cbn [filter] in H. destruct (p x) eqn:Px.
    + destruct u as [|y u].
      * exists [], (x :: l). cbn [filter app]. now rewrite Px.
      * injection H as Hxy H. subst y.
        apply IH in H as (l1 & l2 & -> & <- & <-).
        exists (x :: l1), l2. cbn [filter app]. now rewrite Px.
    + apply IH in H as (l1 & l2 & -> & <- & <-).
      exists (x :: l1), l2. cbn [filter app]. now rewrite Px.
Qed.

Lemma filter_eq_cons (p : A -> bool) (l : list A) (a : A) (v : list A) :
  filter p l = a :: v ->
  exists l1 l2, l = l1 ++ a :: l2 /\ filter p l2 = v.
Proof.
  induction l as [|x l IH]; intros H; [discriminate|].
  cbn [filter] in H. destruct (p x) eqn:Px.
  - injection H as Hxa H. subst a. now exists [], l.
  - apply IH in H as (l1 & l2 & -> & H). now exists (x :: l1), l2.
Qed.

Lemma precedes_unfilter (p : A -> bool) (a b : A) (l : list A) :
  Spec.precedes a b (filter p l) -> Spec.precedes a b l.
Proof.
  intros (u & v & w & H).
  apply filter_eq_app in H as (l1 & l2 & -> & _ & H).
  apply filter_eq_cons in H as (m1 & m2 & -> & H).
  apply filter_eq_app in H as (n1 & n2 & -> & _ & H).
  apply filter_eq_cons in H as (k1 & k2 & -> & _).
  exists (l1 ++ m1), (n1 ++ k1), k2.
  now rewrite <- !app_assoc.
Qed.
End PrefixFacts.

(** ** Means, rounding and the descending order *)

Section NumberFacts.
Local Open Scope Q_scope.
Local Open Scope list_scope.

Lemma mean_fold (xs : list (option Q)) :
  forall (s : Q) (c : nat),
    fst (fold_left Pd.mean_step xs (s, c)) == s + Spec.Qsum (Spec.present xs)
    /\ snd (fold_left Pd.mean_step xs (s, c))
       = (c + List.length (Spec.present xs))%nat.
Proof.
  induction xs as [|[v|] xs IH]; intros s c; cbn [fold_left Pd.mean_step].
  - split; [change (s == s + 0); ring | cbn; lia].
  - destruct (IH (s + v) (S c)) as [Hs Hc]. cbn [fst snd] in *.
    rewrite Hs, Hc. split.
    + change (s + v + Spec.Qsum (Spec.present xs)
              == s + (v + Spec.Qsum (Spec.present xs))). ring.
    + change (Spec.present (Some v :: xs)) with (v :: Spec.present xs).
      cbn [List.length]. lia.
  - apply IH.
Qed.

(** The running sum and count compute the arithmetic mean of the values
    that are present. *)
Lemma mean_is_mean (xs : list (option Q)) : Spec.is_mean_of (Pd.mean xs) xs.
Proof.
  unfold Spec.is_mean_of, Pd.mean.
  destruct (mean_fold xs 0 0%nat) as [Hs Hc].
  destruct (Spec.present xs) as [|p ps] eqn:E.
  - now rewrite Hc.
  - rewrite Hc. cbn [Nat.add List.length]. eexists. split; [reflexivity|].
    rewrite Qred_correct. unfold Spec.arith_mean. rewrite Hs.
    cbn [List.length]. now rewrite Qplus_0_l.
Qed.

Lemma mean_nil_iff (xs : list (option Q)) :
  Pd.mean xs = None <-> Spec.present xs = [].
Proof.
  pose proof (mean_is_mean xs) as H. unfold Spec.is_mean_of in H.
  destruct (Spec.present xs).
  - now split.
  - destruct H as (a & Ha & _). rewrite Ha. now split.
Qed.

Lemma desc_before_asym (a b : option Q) :
  Pd.desc_before a b = true -> Pd.desc_before b a = false.
Proof.
  destruct a as [x|], b as [y|]; cbn; try easy.
  rewrite !negb_true_iff, negb_false_iff. intros H.
  apply Qle_bool_iff. apply not_true_iff_false in H.
  rewrite Qle_bool_iff in H. lra.
Qed.

Lemma desc_before_false (a b : option Q) :
  Pd.desc_before b a = false <-> Spec.avg_ge a b.
Proof.
  destruct a as [x|], b as [y|]; cbn; try easy.
  now rewrite negb_false_iff, Qle_bool_iff.
Qed.

Lemma avg_ge_trans (a b c : option Q) :
  Spec.avg_ge a b -> Spec.avg_ge b c -> Spec.avg_ge a c.
Proof. destruct a, b, c; cbn; try easy. lra. Qed.

Lemma desc_before_negtrans (a b c : option Q) :
  Pd.desc_before a b = false -> Pd.desc_before b c = false ->
  Pd.desc_before a c = false.
Proof.
  rewrite !desc_before_false. intros. now apply avg_ge_trans with b.
Qed.

Lemma same_avg_refl (a : option Q) : Spec.same_avg a a = true.
Proof. destruct a; cbn; [now apply Qeq_bool_iff | reflexivity]. Qed.

Lemma same_avg_ties (v a b : option Q) :
  Spec.same_avg a v = true -> Spec.same_avg b v = true ->
  Pd.desc_before b a = false.
Proof.
  destruct v, a, b; cbn; try easy.
  rewrite !Qeq_bool_iff, negb_false_iff, Qle_bool_iff. lra.
Qed.
End NumberFacts.

(** ** Grouping and joining *)

Section GroupFacts.
Context {R K : Type} (key : R -> option K) (keqb kltb : K -> K -> bool).
Local Open Scope list_scope.

Lemma keys_of_In (rows : list R) (k : K) :
  In k (Pd.keys_of key rows) <-> exists r, In r rows /\ key r = Some k.
Proof.
  unfold Pd.keys_of. rewrite in_flat_map. split; intros (r & Hr & Hk);
    exists r; (split; [assumption|]).
  - destruct (key r); simpl in Hk; [|easy]. destruct Hk; [congruence | easy].
  - rewrite Hk. now left.
Qed.

Lemma groupby_fst (rows : list R) :
  map fst (Pd.groupby key keqb kltb rows)
  = Pd.sort kltb (Pd.unique keqb (Pd.keys_of key rows)).
Proof. unfold Pd.groupby. rewrite map_map. apply map_id. Qed.

Lemma groupby_In (rows : list R) (g : K * list R) :
  In g (Pd.groupby key keqb kltb rows) <->
  In (fst g) (Pd.unique keqb (Pd.keys_of key rows))
  /\ snd g = filter (Pd.in_group key keqb (fst g)) rows.
Proof.
  unfold Pd.groupby. rewrite in_map_iff. split.
  - intros (k & <- & Hk). apply sort_In in Hk. now split.
  - destruct g as [k rs]. cbn [fst snd]. intros [Hk ->].
    exists k. split; [reflexivity | now apply sort_In].
Qed.

End GroupFacts.

Section JoinFacts.
Local Open Scope list_scope.

Lemma filter_none {A : Type} (f : A -> bool) (l : list A) :
  (forall x, In x l -> f x = false) -> filter f l = [].
Proof.
  induction l as [|a l IH]; intros H; [reflexivity|]. cbn [filter].
  rewrite (H a) by (now left). apply IH. intros; apply H; now right.
Qed.

(** In a table whose key column has no duplicate, the rows of one key
    are the one that a search finds, or none. *)
Lemma filter_find_unique {E : Type} (keyf : E -> string) (k : string)
      (l : list E) :
  NoDup (map keyf l) ->
  filter (fun e => String.eqb k (keyf e)) l
  = match find (fun e => String.eqb k (keyf e)) l with
    | Some e => [e]
    | None => []
    end.
Proof.
  induction l as [|a l IH]; intros Hnd; [reflexivity|].
  cbn [map] in Hnd. apply NoDup_cons_iff in Hnd as [Ha Hnd].
  cbn [filter find]. destruct (String.eqb_spec k (keyf a)) as [-> | Hk].
  - f_equal. apply filter_none. intros x Hx.
    apply String.eqb_neq. intros Hx'. apply Ha. rewrite Hx'.
    now apply in_map.
  - now apply IH.
Qed.

Lemma merge_with_unique coords cars :
  NoDup (map (fun e : string * Q * Q => fst (fst e)) coords) ->
  App.merge_with coords cars = map (Spec.with_coords coords) cars.
Proof.
  intros Hnd. unfold App.merge_with, Pd.merge_left.
  transitivity (flat_map (fun c => [Spec.with_coords coords c]) cars).
  - apply flat_map_ext. intros c.
    rewrite (filter_find_unique (fun e : string * Q * Q => fst (fst e))) by
      assumption.
    unfold Spec.with_coords, Spec.coords_of. now destruct (find _ coords).
  - induction cars as [|c cars IH]; [reflexivity|].
    cbn [flat_map map app]. now rewrite IH.
Qed.

Lemma df_cordinates_keys :
  NoDup (map (fun e : string * Q * Q => fst (fst e)) App.df_cordinates).
Proof.
  cbn. repeat (constructor; [cbn; intuition discriminate|]). constructor.
Qed.

Lemma df_cars_rows (csv : list App.Listing) :
  App.df_cars csv = map (Spec.with_coords App.df_cordinates) (App.cars_df csv).
Proof. apply merge_with_unique, df_cordinates_keys. Qed.

Lemma coords_of_key coords loc e :
  Spec.coords_of coords loc = Some e -> In e coords /\ fst (fst e) = loc.
Proof.
  intros H. apply find_some in H as [Hin Heq].
  apply String.eqb_eq in Heq. auto.
Qed.

Lemma coords_of_none coords loc :
  Spec.coords_of coords loc = None ->
  ~ In loc (map (fun e : string * Q * Q => fst (fst e)) coords).
Proof.
  intros H Hin. apply in_map_iff in Hin as (e & <- & He).
  apply (find_none _ _ H) in He. now rewrite String.eqb_refl in He.
Qed.


Lemma df_cordinates_locations :
  map (fun e : string * Q * Q => fst (fst e)) App.df_cordinates
  = fst (fst App.data_cordinates).
Proof. reflexivity. Qed.

Lemma city_key_with_coords coords c :
  App.city_key (Spec.with_coords coords c)
  = Spec.coords_of coords (App.Location (App.listing c)).
Proof.
  unfold Spec.with_coords.
  destruct (Spec.coords_of coords _) as [[[l la] lo]|] eqn:E; [|reflexivity].
  apply coords_of_key in E as [_ E]. cbn in *. now subst.
Qed.

Lemma city_key_eqb_refl k : App.city_key_eqb k k = true.
Proof.
  unfold App.city_key_eqb. now rewrite String.eqb_refl, !Qeq_bool_refl.
Qed.


Lemma city_keys coords cars k :
  In k (Pd.keys_of App.city_key (map (Spec.with_coords coords) cars)) <->
  exists c, In c cars
            /\ Spec.coords_of coords (App.Location (App.listing c)) = Some k.
Proof.
  rewrite keys_of_In. split.
  - intros (r & Hr & Hk). apply in_map_iff in Hr as (c & <- & Hc).
    rewrite city_key_with_coords in Hk. eauto.
  - intros (c & Hc & Hk). exists (Spec.with_coords coords c).
    split; [now apply in_map | now rewrite city_key_with_coords].
Qed.

Lemma city_key_eqb_eq coords cars a b :
  In a (Pd.keys_of App.city_key (map (Spec.with_coords coords) cars)) ->
  In b (Pd.keys_of App.city_key (map (Spec.with_coords coords) cars)) ->
  (App.city_key_eqb a b = true <-> a = b).
Proof.
  intros Ha Hb. split; [|intros ->; apply city_key_eqb_refl].
  apply city_keys in Ha as (ca & _ & Ha).
  apply city_keys in Hb as (cb & _ & Hb).
  unfold App.city_key_eqb. intros H.
  apply andb_prop in H as [H _]. apply andb_prop in H as [H _].
  apply String.eqb_eq in H.
  pose proof (coords_of_key _ _ _ Ha) as [_ Ea].
  pose proof (coords_of_key _ _ _ Hb) as [_ Eb].
  rewrite <- Ea, H, Eb in Ha. congruence.
Qed.
End JoinFacts.

(** ** The record normalizer (lines 36-37) *)

Section Normalizer.

Lemma cars_df_In (csv : list App.Listing) (c : App.Car) :
  In c (App.cars_df csv) <->
  exists l, In l csv /\ c = App.with_brand_model l.
Proof.
  unfold App.cars_df. rewrite in_map_iff.
  split; intros (l & H1 & H2); exists l; auto.
Qed.

Lemma cars_df_listing (csv : list App.Listing) :
  map App.listing (App.cars_df csv) = csv.
Proof.
  unfold App.cars_df. rewrite map_map. apply map_id.
Qed.

(** C8.  For every listing whose name has at least three
    whitespace-delimited tokens, the derived brand is the first token
    and the derived model is the second and the third token joined by a
    single space. *)
Theorem brand_and_model_of_long_name
        (csv : list App.Listing) (c : App.Car) (name : string) :
  In c (App.cars_df csv) ->
  App.Name (App.listing c) = Some name ->
  (3 <= List.length (Py.split name))%nat ->
  App.Brand c = Some (nth 0 (Py.split name) "")
  /\ App.Model c
     = Some (nth 1 (Py.split name) "" ++ " " ++ nth 2 (Py.split name) "").
Proof.
  intros Hc Hname Hlen. apply cars_df_In in Hc as (l & _ & ->).
  cbn [App.listing App.with_brand_model App.Brand App.Model] in *.
  rewrite Hname. cbn [Pd.str_split option_map Pd.str_get].
  destruct (Py.split name) as [|t0 [|t1 [|t2 rest]]]; cbn in Hlen; try lia.
  cbn [nth nth_error Pd.obj_add]. now rewrite append_assoc.
Qed.

Lemma brand_and_model_of_long_name_witness :
  App.Brand (App.with_brand_model Ex.wagon_r_mumbai) = Some "Maruti"
  /\ App.Model (App.with_brand_model Ex.wagon_r_mumbai) = Some "Wagon R".
Proof.
  apply (brand_and_model_of_long_name
           [Ex.wagon_r_mumbai] (App.with_brand_model Ex.wagon_r_mumbai)
           "Maruti Wagon R LXI CNG").
  - now left.
  - reflexivity.
  - vm_compute. lia.
Defined.

(** C4, as the specification has it, fails: with the two-token name
    "Toyota Corolla" the padded model would be "Corolla " while the
    derived model is missing. *)
Lemma short_name_model_is_not_padded :
  (List.length (Py.split "Toyota Corolla") < 3)%nat
  /\ Spec.padded_model "Toyota Corolla" = "Corolla "
  /\ App.Model (App.with_brand_model Ex.corolla) = None
  /\ ~ (forall l name,
           App.Name l = Some name ->
           (List.length (Py.split name) < 3)%nat ->
           App.Model (App.with_brand_model l)
           = Some (Spec.padded_model name)).
Proof.
  split; [vm_compute; lia|]. split; [reflexivity|]. split; [reflexivity|].
  intros H. specialize (H Ex.corolla "Toyota Corolla" eq_refl).
  discriminate H. vm_compute. lia.
Qed.

End Normalizer.

(** ** The cascading selection (lines 85-96) *)

Section FilterResolver.
Local Open Scope list_scope.

Lemma eq_str_some (cell : option string) (s : string) :
  Pd.eq_str cell (Some s) = true <-> cell = Some s.
Proof.
  destruct cell as [x|]; cbn; [|easy]. rewrite String.eqb_eq.
  split; congruence.
Qed.

Lemma eq_str_missing (cell : option string) : Pd.eq_str cell None = false.
Proof. now destruct cell. Qed.

Lemma eq_int_some (x y : Z) : Pd.eq_int (Some x) (Some y) = true <-> x = y.
Proof. cbn. apply Z.eqb_eq. Qed.

Lemma same_str_eq (a b : option string) : Pd.same_str a b = true <-> a = b.
Proof.
  destruct a as [x|], b as [y|]; cbn; try easy.
  rewrite String.eqb_eq. split; congruence.
Qed.

Lemma selects_matches (b m : string) (y : Z) (c : App.Car) :
  App.selects (Some b) (Some m) (Some y) c = true <-> Spec.matches b m y c.
Proof.
  unfold App.selects, Spec.matches.
  now rewrite !andb_true_iff, !eq_str_some, eq_int_some.
Qed.

(** A selection with a missing brand or model selects nothing. *)
Remark missing_selection_is_empty (csv : list App.Listing)
       (b m : option string) (y : option Z) :
  b = None \/ m = None -> App.cars_df_filtered csv b m y = [].
Proof.
  intros H. apply filter_none. intros c _. unfold App.selects.
  destruct H as [-> | ->]; rewrite eq_str_missing;
    now rewrite ?andb_false_r, ?andb_false_l.
Qed.

(** A missing cell offered as a model selects no listing, so that its
    year box is empty. *)
Remark year_options_of_missing_model (csv : list App.Listing)
       (b : option string) :
  App.year_options csv b None = [].
Proof.
  unfold App.year_options. rewrite filter_none; [reflexivity|].
  intros c _. now rewrite eq_str_missing, andb_false_r.
Qed.

(** C6, as the specification has it, fails on a listing that has no
    model.  With the single listing "Toyota Corolla" of 2012, the model
    box of Toyota offers the missing cell, which is the model cell of
    that listing, and the year box that follows is empty although the
    listing has a year: either the missing cell is a model and its year
    is omitted, or it is not and the model box offers something that is
    not a model. *)
Lemma year_of_listing_without_model_is_omitted :
  App.model_options [Ex.corolla] (Some "Toyota") = [None]
  /\ App.year_options [Ex.corolla] (Some "Toyota") None = []
  /\ ~ (forall (csv : list App.Listing) (b : string) (cell : option string),
           In cell (App.model_options csv (Some b)) ->
           forall y,
             In y (App.year_options csv (Some b) cell) <->
             exists c, In c (App.cars_df csv) /\ App.Brand c = Some b
                       /\ App.Model c = cell
                       /\ App.Year (App.listing c) = y).
Proof.
  split; [reflexivity|]. split; [reflexivity|]. intros H.
  specialize (H [Ex.corolla] "Toyota"%string None (or_introl eq_refl) 2012%Z).
  apply (proj2 H). exists (App.with_brand_model Ex.corolla).
  repeat split. now left.
Qed.

(** C6, amended.  For every brand, the model box offers exactly the
    distinct values of the model column among the listings of that
    brand, the missing cell of a listing without model among them; for
    every brand and every model that is a text, the year box offers
    exactly the distinct years among the listings of that brand and
    model; each offered value occurs, each occurring value is offered,
    and none is offered twice.  After the missing cell the year box is
    empty. *)
Theorem options_follow_the_selection (csv : list App.Listing) (b : string) :
  NoDup (App.model_options csv (Some b))
  /\ (forall cell,
         In cell (App.model_options csv (Some b)) <->
         exists c, In c (App.cars_df csv)
                   /\ App.Brand c = Some b /\ App.Model c = cell)
  /\ (forall m : string,
         NoDup (App.year_options csv (Some b) (Some m))
         /\ forall y,
             In y (App.year_options csv (Some b) (Some m)) <->
             exists c, In c (App.cars_df csv) /\ Spec.matches b m y c)
  /\ App.year_options csv (Some b) None = [].
Proof.
  split; [|split; [|split]].
  - apply unique_NoDup. intros a _. now apply same_str_eq.
  - intros cell. unfold App.model_options.
    rewrite unique_In by (intros; apply same_str_eq).
    rewrite in_map_iff. split.
    + intros (c & Hm & Hc). apply filter_In in Hc as [Hc Hb].
      apply eq_str_some in Hb. now exists c.
    + intros (c & Hc & Hb & Hm). exists c. split; [assumption|].
      apply filter_In. split; [assumption | now apply eq_str_some].
  - intros m. split.
    + apply unique_NoDup. intros a _. apply Z.eqb_refl.
    + intros y. unfold App.year_options.
      rewrite unique_In by (intros; apply Z.eqb_eq).
      rewrite in_map_iff. unfold Spec.matches. split.
      * intros (c & Hy & Hc). apply filter_In in Hc as [Hc Hbm].
        apply andb_prop in Hbm as [Hb Hm].
        apply eq_str_some in Hb, Hm. now exists c.
      * intros (c & Hc & Hb & Hm & Hy). exists c. split; [assumption|].
        apply filter_In. split; [assumption|].
        apply andb_true_intro. split; now apply eq_str_some.
  - apply year_options_of_missing_model.
Qed.

Lemma options_follow_the_selection_witness :
  In 2015%Z (App.year_options Ex.csv (Some "Maruti") (Some "Wagon R")).
Proof.
  apply (proj1 (proj2 (proj2 (options_follow_the_selection Ex.csv "Maruti")))
               "Wagon R"%string).
  exists (App.with_brand_model Ex.wagon_r_pune).
  split; [right; now left | now repeat split].
Defined.

(** C7.  For every selection of brand, model and year that matches no
    listing, the average price is the missing value (NaN), not zero nor
    any other number, and the message shows it as such. *)
Theorem average_of_empty_selection_is_missing
        (csv : list App.Listing) (b m : option string) (y : option Z) :
  App.cars_df_filtered csv b m y = [] ->
  App.average_price csv b m y = None
  /\ (forall v, App.average_price csv b m y <> Some v)
  /\ App.price_message (App.average_price csv b m y)
     = "**The average price of the selected car is: nan INR**"%string.
Proof.
  intros H. unfold App.average_price. rewrite H. now repeat split.
Qed.

Lemma average_of_empty_selection_is_missing_witness :
  App.average_price Ex.csv (Some "Maruti") (Some "Wagon R") (Some 2016%Z)
  = None.
Proof.
  apply (average_of_empty_selection_is_missing
           Ex.csv (Some "Maruti") (Some "Wagon R") (Some 2016%Z)).
  reflexivity.
Defined.

End FilterResolver.

(** ** The per-city averages of the selection and the top five
     (lines 100-108) *)

Section TopRanker.
Local Open Scope list_scope.

Lemma top_5_sort (rows : list BarRow.t) :
  App.top_5 rows = firstn 5 (Pd.sort Spec.by_avg rows).
Proof. reflexivity. Qed.

Lemma sorted_weaken {A : Type} (R S : A -> A -> Prop) (l : list A) :
  (forall a b, R a b -> S a b) -> StronglySorted R l -> StronglySorted S l.
Proof.
  intros HRS. induction 1 as [|x l Hl IH Hx]; constructor; [assumption|].
  eapply Forall_impl; [apply HRS | assumption].
Qed.

Lemma sorted_by_avg (rows : list BarRow.t) :
  StronglySorted Spec.avg_order (Pd.sort Spec.by_avg rows).
Proof.
  apply sorted_weaken with (R := Spec.not_after Spec.by_avg).
  - intros a b H. now apply desc_before_false.
  - apply (sort_sorted Spec.by_avg).
    + intros a b. apply desc_before_asym.
    + intros a b c. apply desc_before_negtrans.
Qed.

Lemma sorted_app_order {A : Type} (R : A -> A -> Prop) (l r : list A) :
  StronglySorted R (l ++ r) -> forall a b, In a l -> In b r -> R a b.
Proof.
  induction l as [|x l IH]; cbn [app]; intros Hs a b Ha Hb; [easy|].
  apply StronglySorted_inv in Hs as [Hs Hx]. destruct Ha as [<- | Ha].
  - rewrite Forall_forall in Hx. apply Hx, in_or_app. now right.
  - now apply IH.
Qed.

Lemma keys_of_total {R K : Type} (f : R -> K) (rows : list R) :
  Pd.keys_of (fun r => Some (f r)) rows = map f rows.
Proof.
  unfold Pd.keys_of. induction rows as [|r rows IH]; [reflexivity|].
  cbn [flat_map map app]. now rewrite IH.
Qed.

(** One bar per city of the selection, in ascending order of city. *)
Lemma bar_locations (filtered : list App.Car) :
  map BarRow.Location (App.avg_price_by_city_new filtered)
  = Pd.sort String.ltb
            (Pd.unique String.eqb
                       (map (fun c => App.Location (App.listing c)) filtered)).
Proof.
  unfold App.avg_price_by_city_new. rewrite map_map.
  rewrite <- (keys_of_total (fun c => App.Location (App.listing c))).
  rewrite <- (groupby_fst (fun c => Some (App.Location (App.listing c)))
                          String.eqb String.ltb).
  now apply map_ext.
Qed.

(** C9.  Whenever two cities have the same average price, the top-N
    ranking leaves them in the order of the input collection: the rows
    of any one average are, in the output, the first of their kind in
    input order, and a row that comes before another of the same average
    in the output came before it in the input. *)
Theorem ties_keep_input_order (rows : list BarRow.t) :
  (forall v : option Q,
      let tied r := Spec.same_avg (BarRow.Average_Price r) v in
      exists rest,
        filter tied rows = filter tied (App.top_5 rows) ++ rest)
  /\ (forall a b : BarRow.t,
         Spec.same_avg (BarRow.Average_Price a) (BarRow.Average_Price b)
         = true ->
         Spec.precedes a b (App.top_5 rows) -> Spec.precedes a b rows).
Proof.
  assert (Hprefix : forall v : option Q,
             let tied r := Spec.same_avg (BarRow.Average_Price r) v in
             filter tied rows
             = filter tied (App.top_5 rows)
                      ++ filter tied (skipn 5 (Pd.sort Spec.by_avg rows))).
  { intros v tied. rewrite top_5_sort.
    rewrite <- filter_firstn_prefix. symmetry. apply sort_filter.
    intros x y Hx Hy. apply (same_avg_ties v); assumption. }
  split.
  - intros v tied. eexists. apply Hprefix.
  - intros a b Hab Hout.
    set (tied r := Spec.same_avg (BarRow.Average_Price r)
                                 (BarRow.Average_Price b)).
    apply (precedes_unfilter tied).
    pose proof (Hprefix (BarRow.Average_Price b)) as Hp. cbv zeta in Hp.
    unfold tied. rewrite Hp.
    apply precedes_app_l, precedes_filter;
      [assumption | assumption | apply same_avg_refl].
Qed.

Lemma ties_keep_input_order_witness :
  Spec.precedes Ex.kochi_bar Ex.mumbai_bar
                [Ex.delhi_bar; Ex.kochi_bar; Ex.mumbai_bar].
Proof.
  apply (proj2 (ties_keep_input_order
                  [Ex.delhi_bar; Ex.kochi_bar; Ex.mumbai_bar])).
  - reflexivity.
  - exists [], [], [Ex.delhi_bar]. reflexivity.
Defined.

Example top_5_of_audi_a4 :
  App.df_top_5 Ex.csv (Some "Audi") (Some "A4 New") (Some 2013%Z)
  = [Ex.kochi_bar; Ex.mumbai_bar; Ex.delhi_bar].
Proof. reflexivity. Qed.

End TopRanker.

(** ** The reference join and the per-city averages (lines 53-61, 100-105) *)

Section Aggregator.
Local Open Scope list_scope.

Lemma with_coords_car coords c : App.car (Spec.with_coords coords c) = c.
Proof. unfold Spec.with_coords. now destruct (Spec.coords_of coords _). Qed.

Lemma city_rows_In (csv : list App.Listing) (row : CityRow.t) :
  In row (App.df_avg_price_by_city csv) <->
  exists k,
    In k (Pd.unique App.city_key_eqb
                    (Pd.keys_of App.city_key (App.df_cars csv)))
    /\ row = App.city_row
               (k, filter (Pd.in_group App.city_key App.city_key_eqb k)
                          (App.df_cars csv)).
Proof.
  unfold App.df_avg_price_by_city, App.avg_price_by_city.
  rewrite in_map_iff. split.
  - intros ([k g] & <- & Hg). apply groupby_In in Hg as [Hk Hg].
    cbn [fst snd] in *. subst g. now exists k.
  - intros (k & Hk & ->). eexists. split; [reflexivity|].
    apply groupby_In. now split.
Qed.

Lemma city_key_of_car (csv : list App.Listing) (k : string * Q * Q) :
  In k (Pd.keys_of App.city_key (App.df_cars csv)) <->
  exists l, In l csv
            /\ Spec.coords_of App.df_cordinates (App.Location l) = Some k.
Proof.
  rewrite df_cars_rows, city_keys. split.
  - intros (c & Hc & Hk). apply cars_df_In in Hc as (l & Hl & ->). eauto.
  - intros (l & Hl & Hk). exists (App.with_brand_model l).
    split; [|assumption]. apply cars_df_In. eauto.
Qed.

Lemma city_unique_keys (csv : list App.Listing) (k : string * Q * Q) :
  In k (Pd.unique App.city_key_eqb
                  (Pd.keys_of App.city_key (App.df_cars csv)))
  <-> In k (Pd.keys_of App.city_key (App.df_cars csv)).
Proof.
  apply unique_In. rewrite df_cars_rows. apply city_key_eqb_eq.
Qed.




End Aggregator.

Section ReferenceJoin.
Local Open Scope list_scope.

(** Rows with a missing key cell do not matter to [groupby]. *)
Lemma groupby_dropna {R K : Type} (key : R -> option K)
      (keqb kltb : K -> K -> bool) (rows : list R) :
  Pd.groupby key keqb kltb (filter (Spec.has_key key) rows)
  = Pd.groupby key keqb kltb rows.
Proof.
  unfold Pd.groupby.
  assert (Hkeys : Pd.keys_of key (filter (Spec.has_key key) rows)
                  = Pd.keys_of key rows).
  { unfold Pd.keys_of, Spec.has_key.
    induction rows as [|r rows IH]; [reflexivity|]. cbn [filter flat_map].
    destruct (key r) eqn:E; cbn [flat_map]; rewrite ?E, IH; reflexivity. }
  rewrite Hkeys. clear Hkeys. apply map_ext. intros k. f_equal.
  induction rows as [|r rows IH]; [reflexivity|]. cbn [filter].
  unfold Spec.has_key at 1, Pd.in_group at 2.
  destruct (key r) eqn:E; [|assumption].
  cbn [filter]. unfold Pd.in_group at 1. rewrite E.
  destruct (keqb k0 k); now rewrite IH.
Qed.

Lemma find_existsb {A : Type} (f : A -> bool) (l : list A) :
  match find f l with Some _ => true | None => false end = existsb f l.
Proof.
  induction l as [|a l IH]; [reflexivity|]. cbn. now destruct (f a).
Qed.

Lemma existsb_map {A B : Type} (f : B -> bool) (g : A -> B) (l : list A) :
  existsb f (map g l) = existsb (fun a => f (g a)) l.
Proof. induction l as [|a l IH]; [reflexivity|]. cbn. now rewrite IH. Qed.

Lemma mappedb_coords (loc : string) :
  Spec.mappedb loc
  = match Spec.coords_of App.df_cordinates loc with
    | Some _ => true
    | None => false
    end.
Proof.
  unfold Spec.mappedb, Spec.coords_of.
  now rewrite find_existsb, <- df_cordinates_locations, existsb_map.
Qed.

Lemma mappedb_mapped (loc : string) :
  Spec.mappedb loc = true <-> Spec.mapped loc.
Proof.
  unfold Spec.mappedb, Spec.mapped. rewrite existsb_exists. split.
  - intros (x & Hx & E). apply String.eqb_eq in E. now subst.
  - intros H. exists loc. split; [assumption | apply String.eqb_refl].
Qed.

Lemma coords_row_mapped (e : string * Q * Q) :
  In e App.df_cordinates -> Spec.mapped (fst (fst e)).
Proof.
  intros H. unfold Spec.mapped. rewrite <- df_cordinates_locations.
  now apply (in_map (fun e : string * Q * Q => fst (fst e))).
Qed.

(** C5.  The reference join is a left join: every listing survives it,
    once and in place, whether or not its city is in the coordinate
    table; a listing of a city of the table carries that row's
    coordinates and any other listing carries missing ones; and the city
    averages, which group by the coordinates, have no row for such a
    listing and are what they would be without it. *)
Theorem left_join_keeps_every_listing (csv : list App.Listing) :
  map App.listing (map App.car (App.df_cars csv)) = csv
  /\ (forall r, In r (App.df_cars csv) ->
         let loc := App.Location (App.listing (App.car r)) in
         (Spec.mapped loc
          /\ exists la lo, In (loc, la, lo) App.df_cordinates
                           /\ App.Latitude r = Some la
                           /\ App.Longitude r = Some lo)
         \/ (~ Spec.mapped loc
             /\ App.Latitude r = None /\ App.Longitude r = None))
  /\ (forall row, In row (App.df_avg_price_by_city csv) ->
                  Spec.mapped (CityRow.Location row))
  /\ App.df_avg_price_by_city csv
     = App.df_avg_price_by_city
         (filter (fun l => Spec.mappedb (App.Location l)) csv).
Proof.
  split; [|split; [|split]].
  - rewrite df_cars_rows, !map_map.
    rewrite (map_ext _ App.listing)
      by (intros c; now rewrite with_coords_car).
    apply cars_df_listing.
  - intros r Hr loc. rewrite df_cars_rows in Hr.
    apply in_map_iff in Hr as (c & <- & _). unfold loc.
    rewrite with_coords_car. unfold Spec.with_coords.
    destruct (Spec.coords_of App.df_cordinates _) as [[[l la] lo]|] eqn:E.
    + left. apply coords_of_key in E as [Hin E]. cbn [fst snd] in *.
      subst l. split; [apply (coords_row_mapped _ Hin)|].
      now exists la, lo.
    + right. apply coords_of_none in E.
      now rewrite df_cordinates_locations in E.
  - intros row Hrow. apply city_rows_In in Hrow as (k & Hk & ->).
    apply city_unique_keys, city_key_of_car in Hk as (l & _ & Hk).
    apply coords_of_key in Hk as [Hin _].
    apply (coords_row_mapped _ Hin).
  - unfold App.df_avg_price_by_city, App.avg_price_by_city. f_equal.
    rewrite <- groupby_dropna. f_equal.
    rewrite !df_cars_rows. unfold App.cars_df.
    rewrite !filter_map_swap. do 2 f_equal. apply filter_ext.
    intros l. unfold Spec.has_key. rewrite city_key_with_coords.
    symmetry. apply mappedb_coords.
Qed.

Lemma left_join_keeps_every_listing_witness :
  Spec.mapped "Pune".
Proof.
  apply (proj1 (proj2 (proj2 (left_join_keeps_every_listing Ex.csv)))
               (CityRow.mk "Pune" 18.5204%Q 73.8567%Q (Some (11 # 2)%Q)
                           (Some 550%Q) "550.0K")).
  vm_compute. tauto.
Defined.

End ReferenceJoin.

Section BarLabels.
Local Open Scope list_scope.

Lemma bar_rows_In (filtered : list App.Car) (row : BarRow.t) :
  In row (App.avg_price_by_city_new filtered) <->
  exists c,
    In c filtered
    /\ row = App.bar_row
               (App.Location (App.listing c),
                filter (fun c' => String.eqb (App.Location (App.listing c'))
                                             (App.Location (App.listing c)))
                       filtered).
Proof.
  unfold App.avg_price_by_city_new. rewrite in_map_iff. split.
  - intros ([k g] & <- & Hg). apply groupby_In in Hg as [Hk Hg].
    cbn [fst snd] in *. subst g.
    rewrite unique_In in Hk by (intros; apply String.eqb_eq).
    apply keys_of_In in Hk as (c & Hc & [= <-]). now exists c.
  - intros (c & Hc & ->). eexists. split; [reflexivity|].
    apply groupby_In. split; [|reflexivity]. cbn [fst].
    rewrite unique_In by (intros; apply String.eqb_eq).
    apply keys_of_In. now exists c.
Qed.

End BarLabels.

(** ** More on sorting: sorted input, and the order of texts *)

Section SortedInput.
Context {A : Type} (before : A -> A -> bool).
Local Open Scope list_scope.

(** Sorting leaves a sorted list as it is. *)
Lemma sort_sorted_id (l : list A) :
  StronglySorted (Spec.not_after before) l -> Pd.sort before l = l.
Proof.
  induction 1 as [|x l Hl IH Hx]; [reflexivity|].
  cbn [Pd.sort fold_right]. fold (Pd.sort before l). rewrite IH.
  destruct l as [|y t]; [reflexivity|]. cbn [Pd.insert].
  apply Forall_inv in Hx. unfold Spec.not_after in Hx. now rewrite Hx.
Qed.

(** Two orders that agree on the elements of a list sort it (through a
    map) the same way. *)
Lemma insert_map_agree {B : Type} (before' : B -> B -> bool) (f : A -> B)
      (x : A) (l : list A) :
  (forall y, In y l -> before y x = before' (f y) (f x)) ->
  map f (Pd.insert before x l) = Pd.insert before' (f x) (map f l).
Proof.
  induction l as [|y l IH]; intros H; [reflexivity|].
  cbn [Pd.insert map]. rewrite <- (H y) by (now left).
  destruct (before y x); [|reflexivity].
  cbn [map]. rewrite IH; [reflexivity|]. intros; apply H; now right.
Qed.

Lemma sort_map_agree {B : Type} (before' : B -> B -> bool) (f : A -> B)
      (l : list A) :
  (forall a b, In a l -> In b l -> before a b = before' (f a) (f b)) ->
  map f (Pd.sort before l) = Pd.sort before' (map f l).
Proof.
  induction l as [|x l IH]; intros H; [reflexivity|].
  cbn [Pd.sort fold_right map]. fold (Pd.sort before l).
  fold (Pd.sort before' (map f l)).
  rewrite (insert_map_agree before').
  - rewrite IH; [reflexivity|]. intros; apply H; now right.
  - intros y Hy. apply sort_In in Hy. apply H; [now right | now left].
Qed.

Section Total.
Hypothesis before_total :
  forall a b, a <> b -> before a b = true \/ before b a = true.

(** Sorted lists without repetition are determined by their elements. *)
Lemma sorted_perm_eq (l1 : list A) :
  forall l2,
    StronglySorted (Spec.not_after before) l1 ->
    StronglySorted (Spec.not_after before) l2 ->
    (forall a b, In a l1 -> In b l1 -> {a = b} + {a <> b}) ->
    Permutation l1 l2 -> l1 = l2.
Proof.
  induction l1 as [|x t1 IH]; intros l2 H1 H2 Hdec Hp.
  - apply Permutation_nil in Hp. now subst.
  - destruct l2 as [|y t2];
      [symmetry in Hp; now apply Permutation_nil in Hp|].
    apply StronglySorted_inv in H1 as [H1 Hx].
    apply StronglySorted_inv in H2 as [H2 Hy].
    rewrite Forall_forall in Hx, Hy.
    assert (Hyin : In y (x :: t1))
      by (eapply Permutation_in; [symmetry; exact Hp | now left]).
    assert (Hxin : In x (y :: t2))
      by (eapply Permutation_in; [exact Hp | now left]).
    assert (Hxy : x = y).
    { destruct (Hdec x y (or_introl eq_refl) Hyin) as [E | N]; [assumption|].
      destruct Hyin as [E | Hy1]; [assumption|].
      destruct Hxin as [E | Hx2]; [now symmetry|].
      specialize (Hx y Hy1). specialize (Hy x Hx2).
      unfold Spec.not_after in Hx, Hy.
      destruct (before_total x y N); congruence. }
    subst y. f_equal. apply IH; try assumption.
    + intros a b Ha Hb. apply Hdec; now right.
    + now apply Permutation_cons_inv in Hp.
Qed.
End Total.
End SortedInput.

Section StringOrder.
Import OrderedTypeEx.

Lemma ltb_lt (a b : string) : String.ltb a b = true <-> String_as_OT.lt a b.
Proof.
  unfold String.ltb. rewrite <- String_as_OT.cmp_lt.
  unfold String_as_OT.cmp. destruct (String.compare a b); split; congruence.
Qed.

Lemma ltb_total (a b : string) :
  a <> b -> String.ltb a b = true \/ String.ltb b a = true.
Proof.
  intros N. unfold String.ltb. rewrite (String.compare_antisym b a).
  destruct (String.compare a b) eqn:E; cbn; auto.
  now apply String.compare_eq_iff in E.
Qed.

Lemma ltb_irrefl (a : string) : String.ltb a a = false.
Proof.
  destruct (String.ltb a a) eqn:E; [|reflexivity].
  apply ltb_lt in E. apply String_as_OT.lt_not_eq in E.
  exfalso. apply E. reflexivity.
Qed.

Lemma ltb_trans (a b c : string) :
  String.ltb a b = true -> String.ltb b c = true -> String.ltb a c = true.
Proof. rewrite !ltb_lt. apply String_as_OT.lt_trans. Qed.

Lemma ltb_asym (a b : string) :
  String.ltb a b = true -> String.ltb b a = false.
Proof.
  intros H. destruct (String.ltb b a) eqn:E; [|reflexivity].
  pose proof (ltb_trans _ _ _ H E) as C. now rewrite ltb_irrefl in C.
Qed.

Lemma ltb_negtrans (a b c : string) :
  String.ltb a b = false -> String.ltb b c = false -> String.ltb a c = false.
Proof.
  intros Hab Hbc. destruct (String.ltb a c) eqn:Hac; [|reflexivity].
  destruct (string_dec a b) as [-> | Nab]; [congruence|].
  destruct (ltb_total a b Nab) as [C | Hba]; [congruence|].
  destruct (string_dec b c) as [-> | Nbc].
  - pose proof (ltb_trans _ _ _ Hac Hba) as C. now rewrite ltb_irrefl in C.
  - destruct (ltb_total b c Nbc) as [C | Hcb]; [congruence|].
    pose proof (ltb_trans _ _ _ Hac Hcb) as C. congruence.
Qed.

(** A sorted list of distinct texts is strictly ascending. *)
Lemma sort_ascending (l : list string) :
  NoDup l -> Spec.ascending (Pd.sort String.ltb l).
Proof.
  intros Hnd. apply (sort_NoDup String.ltb) in Hnd.
  pose proof (sort_sorted String.ltb ltb_asym ltb_negtrans l) as Hs.
  unfold Spec.ascending. induction Hs as [|x t Ht IH Hx]; constructor.
  - apply IH. now apply NoDup_cons_iff in Hnd.
  - apply NoDup_cons_iff in Hnd as [Hx' _].
    rewrite Forall_forall in *. intros y Hy. specialize (Hx y Hy).
    unfold Spec.not_after in Hx.
    destruct (ltb_total x y) as [H | H]; [congruence | assumption | congruence].
Qed.

End StringOrder.

(** ** More on the record normalizer (lines 36-37) *)

Section NormalizerShape.
Local Open Scope list_scope.

Lemma split_from_nil (s : string) :
  forall tok,
    Py.split_from tok s = [] <-> tok = ""%string /\ Spec.blank s = true.
Proof.
  induction s as [|c s IH]; intros tok; cbn [Py.split_from Spec.blank].
  - destruct tok; cbn; [tauto|].
    split; [discriminate | intros [H _]; discriminate H].
  - destruct (Py.isspace c) eqn:Hc; cbn [andb].
    + destruct tok; cbn [Py.flush]; [apply IH|].
      split; [discriminate | intros [H _]; discriminate H].
    + rewrite IH. split; [|intros [_ H]; discriminate H].
      intros [H _]. destruct tok; discriminate H.
Qed.

Lemma nth_error_token (toks : list string) (i : nat) (t : string) :
  Forall Spec.token toks -> nth_error toks i = Some t -> Spec.token t.
Proof.
  intros H E. rewrite Forall_forall in H. apply H.
  now apply nth_error_In with i.
Qed.

(** X1.  A brand is one token and a model is two tokens one space apart:
    splitting them again gives these tokens back. *)
Theorem brand_and_model_are_made_of_tokens
        (csv : list App.Listing) (c : App.Car) :
  In c (App.cars_df csv) ->
  (forall b, App.Brand c = Some b ->
             Spec.token b /\ Py.split b = [b])
  /\ (forall m, App.Model c = Some m ->
                exists t1 t2,
                  Spec.token t1 /\ Spec.token t2
                  /\ m = (t1 ++ " " ++ t2)%string
                  /\ Py.split m = [t1; t2]).
Proof.
  intros Hc. apply cars_df_In in Hc as (l & _ & ->).
  cbn [App.with_brand_model App.Brand App.Model].
  destruct (App.Name l) as [name|]; cbn [Pd.str_split option_map Pd.str_get];
    [|split; intros ? H; discriminate H].
  pose proof (split_tokens name) as Htoks. split.
  - intros b Hb. apply (nth_error_token _ _ _ Htoks) in Hb.
    split; [assumption|].
    apply (split_concat [b]). now constructor.
  - intros m Hm.
    destruct (nth_error (Py.split name) 1) as [t1|] eqn:E1; [|discriminate].
    destruct (nth_error (Py.split name) 2) as [t2|] eqn:E2; [|discriminate].
    cbn [Pd.obj_add] in Hm. injection Hm as <-.
    apply (nth_error_token _ _ _ Htoks) in E1, E2.
    exists t1, t2. rewrite append_assoc.
    repeat (split; [assumption || reflexivity|]).
    apply (split_concat [t1; t2]).
    constructor; [assumption|]. constructor; [assumption | constructor].
Qed.

Lemma brand_and_model_are_made_of_tokens_witness :
  Spec.token "Maruti" /\ Py.split "Maruti" = ["Maruti"%string].
Proof.
  apply (proj1 (brand_and_model_are_made_of_tokens
                  Ex.csv (App.with_brand_model Ex.wagon_r_mumbai)
                  (or_introl eq_refl))).
  reflexivity.
Defined.

End NormalizerShape.

(** ** More on the cascading selection (lines 85-96) *)

Section Cascade.
Local Open Scope list_scope.

Lemma brand_options_In (csv : list App.Listing) (cell : option string) :
  In cell (App.brand_options csv) <->
  exists c, In c (App.cars_df csv) /\ App.Brand c = cell.
Proof.
  unfold App.brand_options.
  rewrite unique_In by (intros; apply same_str_eq).
  rewrite in_map_iff. split; intros (c & H1 & H2); exists c; auto.
Qed.

Lemma model_options_In (csv : list App.Listing) (b : string)
      (cell : option string) :
  In cell (App.model_options csv (Some b)) <->
  exists c, In c (App.cars_df csv) /\ App.Brand c = Some b
            /\ App.Model c = cell.
Proof.
  unfold App.model_options.
  rewrite unique_In by (intros; apply same_str_eq).
  rewrite in_map_iff. split.
  - intros (c & Hm & Hc). apply filter_In in Hc as [Hc Hb].
    apply eq_str_some in Hb. now exists c.
  - intros (c & Hc & Hb & Hm). exists c. split; [assumption|].
    apply filter_In. split; [assumption | now apply eq_str_some].
Qed.

Lemma year_options_In (csv : list App.Listing) (b m : string) (y : Z) :
  In y (App.year_options csv (Some b) (Some m)) <->
  exists c, In c (App.cars_df csv) /\ Spec.matches b m y c.
Proof.
  unfold App.year_options.
  rewrite unique_In by (intros; apply Z.eqb_eq).
  rewrite in_map_iff. unfold Spec.matches. split.
  - intros (c & Hy & Hc). apply filter_In in Hc as [Hc Hbm].
    apply andb_prop in Hbm as [Hb Hm].
    apply eq_str_some in Hb, Hm. now exists c.
  - intros (c & Hc & Hb & Hm & Hy). exists c. split; [assumption|].
    apply filter_In. split; [assumption|].
    apply andb_true_intro. split; now apply eq_str_some.
Qed.

Lemma filtered_In (csv : list App.Listing) (b m : string) (y : Z)
      (c : App.Car) :
  In c (App.cars_df_filtered csv (Some b) (Some m) (Some y)) <->
  In c (App.cars_df csv) /\ Spec.matches b m y c.
Proof.
  unfold App.cars_df_filtered. now rewrite filter_In, selects_matches.
Qed.

Lemma In_not_nil {A : Type} (x : A) (l : list A) : In x l -> l <> [].
Proof. intros H ->. exact H. Qed.

(** X3.  The brand box (line 85) offers exactly the distinct values of the
    brand column, each once. *)
Theorem brand_box_offers_the_brands (csv : list App.Listing) :
  NoDup (App.brand_options csv)
  /\ forall cell,
      In cell (App.brand_options csv) <->
      exists l, In l csv /\ App.Brand (App.with_brand_model l) = cell.
Proof.
  split.
  - apply unique_NoDup. intros a _. now apply same_str_eq.
  - intros cell. rewrite brand_options_In. split.
    + intros (c & Hc & Hb). apply cars_df_In in Hc as (l & Hl & ->). eauto.
    + intros (l & Hl & Hb). exists (App.with_brand_model l).
      split; [apply cars_df_In; eauto | assumption].
Qed.

(** X4.  A choice made from what the boxes offer never runs dry: an offered
    brand has a model to offer, an offered model has a year to offer, and
    an offered year selects at least one listing. *)
Theorem offered_choices_select_a_listing
        (csv : list App.Listing) (b m : string) (y : Z) :
  (In (Some b) (App.brand_options csv) ->
   App.model_options csv (Some b) <> [])
  /\ (In (Some m) (App.model_options csv (Some b)) ->
      App.year_options csv (Some b) (Some m) <> [])
  /\ (In y (App.year_options csv (Some b) (Some m)) ->
      App.cars_df_filtered csv (Some b) (Some m) (Some y) <> []).
Proof.
  split; [|split].
  - intros H. apply brand_options_In in H as (c & Hc & Hb).
    apply (In_not_nil (App.Model c)). apply model_options_In. now exists c.
  - intros H. apply model_options_In in H as (c & Hc & Hb & Hm).
    apply (In_not_nil (App.Year (App.listing c))). apply year_options_In.
    exists c. now repeat split.
  - intros H. apply year_options_In in H as (c & Hc & Hm).
    apply (In_not_nil c). now apply filtered_In.
Qed.

Lemma offered_choices_select_a_listing_witness :
  App.cars_df_filtered Ex.csv (Some "Audi") (Some "A4 New") (Some 2013%Z)
  <> [].
Proof.
  apply (proj2 (proj2 (offered_choices_select_a_listing
                         Ex.csv "Audi" "A4 New" 2013%Z))).
  vm_compute. tauto.
Defined.

(** X5.  Each box lists its values in order of first appearance, so that the
    first option of every box is the value of the first listing, and the
    first options together select that listing. *)
Theorem boxes_open_on_the_first_listing
        (l : App.Listing) (rest : list App.Listing) (b m : string) :
  App.Brand (App.with_brand_model l) = Some b ->
  App.Model (App.with_brand_model l) = Some m ->
  hd_error (App.brand_options (l :: rest)) = Some (Some b)
  /\ hd_error (App.model_options (l :: rest) (Some b)) = Some (Some m)
  /\ hd_error (App.year_options (l :: rest) (Some b) (Some m))
     = Some (App.Year l)
  /\ hd_error (App.cars_df_filtered (l :: rest) (Some b) (Some m)
                                    (Some (App.Year l)))
     = Some (App.with_brand_model l).
Proof.
  intros Hb Hm.
  unfold App.brand_options, App.model_options, App.year_options,
    App.cars_df_filtered, App.selects.
  cbn [App.cars_df map filter]. rewrite Hb, Hm.
  cbn [Pd.eq_str Pd.eq_int]. rewrite !String.eqb_refl, Z.eqb_refl.
  cbn [andb map Pd.unique hd_error]. rewrite Hm. now repeat split.
Qed.

Lemma boxes_open_on_the_first_listing_witness :
  hd_error (App.cars_df_filtered Ex.csv (Some "Maruti") (Some "Wagon R")
                                 (Some 2015%Z))
  = Some (App.with_brand_model Ex.wagon_r_mumbai).
Proof.
  apply (boxes_open_on_the_first_listing
           Ex.wagon_r_mumbai (List.tl Ex.csv) "Maruti" "Wagon R");
    reflexivity.
Defined.

End Cascade.

(** ** More on the average (line 93) *)

Section AverageFacts.
Local Open Scope Q_scope.
Local Open Scope list_scope.

Lemma present_In {A : Type} (xs : list (option A)) (v : A) :
  In v (Spec.present xs) <-> In (Some v) xs.
Proof.
  unfold Spec.present. rewrite in_flat_map. split.
  - intros ([w|] & Hx & Hv); cbn in Hv; [|easy].
    destruct Hv as [-> | []]. assumption.
  - intros H. exists (Some v). split; [assumption | now left].
Qed.

(** X7.  The average is missing exactly when no selected listing has a
    price, be the selection empty or not. *)
Theorem average_is_missing_iff_no_price
        (csv : list App.Listing) (b m : option string) (y : option Z) :
  App.average_price csv b m y = None <->
  forall c, In c (App.cars_df_filtered csv b m y) ->
            App.Price (App.listing c) = None.
Proof.
  unfold App.average_price. rewrite mean_nil_iff. split.
  - intros E c Hc. destruct (App.Price (App.listing c)) as [p|] eqn:Ep;
      [|reflexivity].
    assert (Hin : In p (Spec.present
                          (map (fun c => App.Price (App.listing c))
                               (App.cars_df_filtered csv b m y)))).
    { apply present_In, in_map_iff. now exists c. }
    now rewrite E in Hin.
  - intros H.
    destruct (Spec.present _) as [|p ps] eqn:E; [reflexivity|].
    assert (Hin : In p (Spec.present
                          (map (fun c => App.Price (App.listing c))
                               (App.cars_df_filtered csv b m y))))
      by (rewrite E; now left).
    apply present_In, in_map_iff in Hin as (c & Hp & Hc).
    rewrite (H c Hc) in Hp. discriminate.
Qed.

Lemma average_is_missing_iff_no_price_witness :
  App.average_price Ex.csv (Some "Honda"%string) (Some "City 1.5"%string)
                    (Some 2012%Z) = None.
Proof.
  apply (proj2 (average_is_missing_iff_no_price
                  Ex.csv (Some "Honda"%string) (Some "City 1.5"%string)
                  (Some 2012%Z))).
  intros c [<- | []]. reflexivity.
Defined.

End AverageFacts.

(** ** More on the bars and the top five (lines 100-108) *)

Section BarFacts.
Local Open Scope list_scope.

Lemma unique_nil_iff {A : Type} (eqb : A -> A -> bool) (l : list A) :
  Pd.unique eqb l = [] <-> l = [].
Proof. destruct l; cbn; split; easy. Qed.

Lemma sort_nil_iff {A : Type} (before : A -> A -> bool) (l : list A) :
  Pd.sort before l = [] <-> l = [].
Proof.
  split; [|now intros ->]. intros H.
  apply (f_equal (@List.length A)) in H. rewrite sort_length in H.
  now destruct l.
Qed.

Lemma sorted_top (rows : list BarRow.t) :
  StronglySorted (Spec.not_after Spec.by_avg) (Pd.sort Spec.by_avg rows).
Proof.
  apply (sort_sorted Spec.by_avg).
  - intros a b. apply desc_before_asym.
  - intros a b c. apply desc_before_negtrans.
Qed.

(** The bars of the selection, key by key. *)
Lemma bars_eq (filtered : list App.Car) :
  App.avg_price_by_city_new filtered
  = map (fun k =>
           App.bar_row
             (k, filter (fun c => String.eqb (App.Location (App.listing c)) k)
                        filtered))
        (Pd.sort String.ltb
                 (Pd.unique String.eqb
                    (map (fun c => App.Location (App.listing c)) filtered))).
Proof.
  unfold App.avg_price_by_city_new, Pd.groupby.
  now rewrite map_map, keys_of_total.
Qed.

(** X10.  Before the ranking, the bars are in strictly ascending order of
    city: [groupby] sorts its keys. *)
Theorem bars_are_in_city_order
        (csv : list App.Listing) (b m : option string) (y : option Z) :
  Spec.ascending
    (map BarRow.Location (App.df_avg_price_by_city_new csv b m y)).
Proof.
  unfold App.df_avg_price_by_city_new. rewrite bar_locations.
  apply sort_ascending, unique_NoDup. intros a _. apply String.eqb_refl.
Qed.

(** X13.  Ranking a ranking changes nothing. *)
Theorem top_5_is_idempotent (rows : list BarRow.t) :
  App.top_5 (App.top_5 rows) = App.top_5 rows.
Proof.
  rewrite !top_5_sort. rewrite sort_sorted_id.
  - now rewrite firstn_firstn.
  - apply firstn_sorted, sorted_top.
Qed.

(** X14.  With at most five rows the ranking keeps every row, and on rows that
    are already in descending order it returns the first five as they
    are. *)
Theorem top_5_of_few_or_sorted_rows (rows : list BarRow.t) :
  ((List.length rows <= 5)%nat -> Permutation (App.top_5 rows) rows)
  /\ (StronglySorted Spec.avg_order rows -> App.top_5 rows = firstn 5 rows).
Proof.
  rewrite top_5_sort. split.
  - intros H. rewrite firstn_all2 by (now rewrite sort_length).
    apply sort_perm.
  - intros H. rewrite sort_sorted_id; [reflexivity|].
    apply sorted_weaken with (R := Spec.avg_order); [|assumption].
    intros a b Hab. now apply desc_before_false.
Qed.

Lemma top_5_of_few_or_sorted_rows_witness :
  Permutation (App.top_5 [Ex.delhi_bar; Ex.kochi_bar; Ex.mumbai_bar])
              [Ex.delhi_bar; Ex.kochi_bar; Ex.mumbai_bar].
Proof.
  apply (proj1 (top_5_of_few_or_sorted_rows
                  [Ex.delhi_bar; Ex.kochi_bar; Ex.mumbai_bar])).
  cbn. lia.
Defined.

(** X15.  The top five are bars of cities of the selection, no city twice. *)
Theorem top_5_cities_are_distinct
        (csv : list App.Listing) (b m : option string) (y : option Z) :
  NoDup (map BarRow.Location (App.df_top_5 csv b m y))
  /\ forall r, In r (App.df_top_5 csv b m y) ->
               In r (App.df_avg_price_by_city_new csv b m y)
               /\ exists c, In c (App.cars_df_filtered csv b m y)
                            /\ App.Location (App.listing c)
                               = BarRow.Location r.
Proof.
  unfold App.df_top_5. rewrite top_5_sort.
  set (rows := App.df_avg_price_by_city_new csv b m y).
  assert (Hnd : NoDup (map BarRow.Location rows)).
  { unfold rows, App.df_avg_price_by_city_new. rewrite bar_locations.
    apply sort_NoDup, unique_NoDup. intros a _. apply String.eqb_refl. }
  assert (Hin : forall r, In r (firstn 5 (Pd.sort Spec.by_avg rows)) ->
                          In r rows).
  { intros r Hr. apply (sort_In Spec.by_avg).
    rewrite <- (firstn_skipn 5 (Pd.sort Spec.by_avg rows)).
    apply in_or_app. now left. }
  split.
  - apply (Permutation_NoDup
             (Permutation_map BarRow.Location
                (Permutation_sym (sort_perm Spec.by_avg rows)))) in Hnd.
    rewrite <- (firstn_skipn 5 (Pd.sort Spec.by_avg rows)), map_app in Hnd.
    now apply NoDup_app_remove_r in Hnd.
  - intros r Hr. apply Hin in Hr. split; [assumption|].
    apply bar_rows_In in Hr as (c & Hc & ->). now exists c.
Qed.

Lemma top_5_cities_are_distinct_witness :
  In Ex.kochi_bar
     (App.df_avg_price_by_city_new Ex.csv (Some "Audi"%string)
                                   (Some "A4 New"%string) (Some 2013%Z)).
Proof.
  apply (proj2 (top_5_cities_are_distinct
                  Ex.csv (Some "Audi"%string) (Some "A4 New"%string)
                  (Some 2013%Z)) Ex.kochi_bar).
  vm_compute. tauto.
Defined.

End BarFacts.

(** ** More on the city averages (lines 40-61) *)

Section CityFacts.
Local Open Scope list_scope.

Local Abbreviation loc_of := (fun k : string * Q * Q => fst (fst k)).

Lemma compare_refl (a : string) : String.compare a a = Eq.
Proof.
  pose proof (String.compare_antisym a a) as H.
  destruct (String.compare a a); [reflexivity | discriminate | discriminate].
Qed.

Lemma Qcompare_refl (x : Q) : Qcompare x x = Eq.
Proof. apply Qeq_alt. reflexivity. Qed.

(** Strings in sorted order are determined by their elements. *)
Lemma sort_same_elements (l l' : list string) :
  NoDup l -> NoDup l' -> (forall x, In x l <-> In x l') ->
  Pd.sort String.ltb l = Pd.sort String.ltb l'.
Proof.
  intros Hl Hl' Hin. apply (sorted_perm_eq String.ltb ltb_total).
  - apply sort_sorted; [apply ltb_asym | apply ltb_negtrans].
  - apply sort_sorted; [apply ltb_asym | apply ltb_negtrans].
  - intros a b _ _. apply string_dec.
  - rewrite !sort_perm. now apply NoDup_Permutation.
Qed.

Lemma city_keys_of_table (csv : list App.Listing) (k : string * Q * Q) :
  In k (Pd.unique App.city_key_eqb
                  (Pd.keys_of App.city_key (App.df_cars csv))) ->
  Spec.coords_of App.df_cordinates (loc_of k) = Some k.
Proof.
  intros H. apply city_unique_keys, city_key_of_car in H as (l & _ & Hk).
  pose proof (coords_of_key _ _ _ Hk) as [_ E]. now rewrite E.
Qed.

(** On the keys of the table the order of the keys is the order of their
    cities. *)
Lemma city_key_ltb_agrees (csv : list App.Listing) (a b : string * Q * Q) :
  In a (Pd.unique App.city_key_eqb
                  (Pd.keys_of App.city_key (App.df_cars csv))) ->
  In b (Pd.unique App.city_key_eqb
                  (Pd.keys_of App.city_key (App.df_cars csv))) ->
  App.city_key_ltb a b = String.ltb (loc_of a) (loc_of b).
Proof.
  intros Ha Hb. apply city_keys_of_table in Ha, Hb.
  unfold App.city_key_ltb, String.ltb.
  destruct (String.compare (loc_of a) (loc_of b)) eqn:E; try reflexivity.
  apply String.compare_eq_iff in E. cbv beta in E. rewrite E in Ha.
  assert (a = b) by congruence. subst b.
  now rewrite !Qcompare_refl.
Qed.

Lemma city_locations_sorted (csv : list App.Listing) :
  map CityRow.Location (App.df_avg_price_by_city csv)
  = Pd.sort String.ltb
            (map loc_of
                 (Pd.unique App.city_key_eqb
                            (Pd.keys_of App.city_key (App.df_cars csv)))).
Proof.
  unfold App.df_avg_price_by_city, App.avg_price_by_city.
  rewrite map_map.
  rewrite (map_ext _ (fun g => loc_of (fst g))) by reflexivity.
  rewrite <- (map_map fst loc_of), groupby_fst.
  apply sort_map_agree. intros a b. apply city_key_ltb_agrees.
Qed.

Lemma city_locations_unique (csv : list App.Listing) :
  NoDup (map loc_of
             (Pd.unique App.city_key_eqb
                        (Pd.keys_of App.city_key (App.df_cars csv)))).
Proof.
  apply NoDup_map_NoDup_ForallPairs.
  - intros a b Ha Hb E. apply city_keys_of_table in Ha, Hb.
    cbv beta in E. rewrite E in Ha. congruence.
  - apply unique_NoDup. intros a _. apply city_key_eqb_refl.
Qed.

Lemma city_locations_In (csv : list App.Listing) (loc : string) :
  In loc (map loc_of
              (Pd.unique App.city_key_eqb
                         (Pd.keys_of App.city_key (App.df_cars csv))))
  <-> (exists l, In l csv /\ App.Location l = loc)
      /\ Spec.mappedb loc = true.
Proof.
  rewrite in_map_iff, mappedb_coords. split.
  - intros (k & <- & Hk). pose proof (city_keys_of_table _ _ Hk) as E.
    apply city_unique_keys, city_key_of_car in Hk as (l & Hl & Hk).
    pose proof (coords_of_key _ _ _ Hk) as [_ El].
    split; [exists l; now split | now rewrite E].
  - intros [(l & Hl & <-) H].
    destruct (Spec.coords_of App.df_cordinates (App.Location l))
      as [k|] eqn:E; [|discriminate].
    exists k. split; [now apply coords_of_key in E|].
    apply city_unique_keys, city_key_of_car. eauto.
Qed.

(** X16.  The rows of the city averages are in strictly ascending order of
    city. *)
Theorem city_rows_are_in_city_order (csv : list App.Listing) :
  Spec.ascending (map CityRow.Location (App.df_avg_price_by_city csv)).
Proof.
  rewrite city_locations_sorted. apply sort_ascending, city_locations_unique.
Qed.

(** X17.  [df_cities] (line 40) holds each city of the data once, and the
    cities of the map are those of them that the coordinate table has, in
    ascending order. *)
Theorem map_cities_are_the_known_df_cities (csv : list App.Listing) :
  NoDup (App.df_cities csv)
  /\ (forall loc, In loc (App.df_cities csv) <->
                  exists l, In l csv /\ App.Location l = loc)
  /\ map CityRow.Location (App.df_avg_price_by_city csv)
     = Pd.sort String.ltb (filter Spec.mappedb (App.df_cities csv)).
Proof.
  assert (Hin : forall loc, In loc (App.df_cities csv) <->
                            exists l, In l csv /\ App.Location l = loc).
  { intros loc. unfold App.df_cities, App.cars_df.
    rewrite unique_In by (intros; apply String.eqb_eq).
    rewrite map_map, in_map_iff.
    split; intros (l & H1 & H2); exists l; auto. }
  assert (Hnd : NoDup (App.df_cities csv))
    by (apply unique_NoDup; intros a _; apply String.eqb_refl).
  split; [assumption|]. split; [assumption|].
  rewrite city_locations_sorted. apply sort_same_elements.
  - apply city_locations_unique.
  - now apply NoDup_filter.
  - intros loc. now rewrite city_locations_In, filter_In, Hin.
Qed.

End CityFacts.

(** ** Instances on the sample data *)

Section Instances.
Local Open Scope list_scope.

Lemma brand_box_offers_the_brands_witness :
  In (Some "Audi"%string) (App.brand_options Ex.csv).
Proof.
  apply (proj2 (proj2 (brand_box_offers_the_brands Ex.csv) _)).
  exists Ex.a4_mumbai. split; [|reflexivity].
  do 4 right. now left.
Defined.

Lemma map_cities_are_the_known_df_cities_witness :
  In "Goa"%string (App.df_cities Ex.csv).
Proof.
  apply (proj2 (proj1 (proj2 (map_cities_are_the_known_df_cities Ex.csv))
                      "Goa"%string)).
  exists Ex.corolla. split; [|reflexivity]. do 2 right. now left.
Defined.

End Instances.

(** ** Lines 36-37 as they run *)

Section RunFacts.
Local Open Scope list_scope.

Lemma is_float64_iff {A : Type} (col : list (option A)) :
  Run.is_float64 col = true <-> col <> [] /\ forall x, In x col -> x = None.
Proof.
  destruct col as [|c col].
  - cbn. split; [discriminate | intros [H _]; now elim H].
  - unfold Run.is_float64. rewrite forallb_forall. split.
    + intros H. split; [discriminate|]. intros x Hx.
      specialize (H x Hx). now destruct x.
    + intros [_ H] x Hx. now rewrite (H x Hx).
Qed.

Lemma is_float64_false {A : Type} (col : list (option A)) :
  Run.is_float64 col = false <-> col = [] \/ exists v, In (Some v) col.
Proof.
  split.
  - destruct col as [|c col]; [now left|]. intros H. right.
    unfold Run.is_float64 in H. revert H. generalize (c :: col). intros l.
    induction l as [|[v|] l IH]; cbn [forallb andb].
    + discriminate.
    + intros _. exists v. now left.
    + intros H. destruct (IH H) as [v Hv]. exists v. now right.
  - intros [-> | [v Hv]]; [reflexivity|]. apply not_true_iff_false.
    rewrite is_float64_iff. intros [_ H]. specialize (H _ Hv). discriminate H.
Qed.

Lemma second_token_iff (l : App.Listing) (t : string) :
  Pd.str_get 1 (Pd.str_split (App.Name l)) = Some t ->
  exists name, App.Name l = Some name
               /\ (2 <= List.length (Py.split name))%nat.
Proof.
  destruct (App.Name l) as [name|]; cbn [Pd.str_split option_map Pd.str_get];
    [|discriminate].
  intros H. exists name. split; [reflexivity|].
  apply nth_error_Some. congruence.
Qed.

Lemma second_token_of (l : App.Listing) (name : string) :
  App.Name l = Some name -> (2 <= List.length (Py.split name))%nat ->
  exists t, Pd.str_get 1 (Pd.str_split (App.Name l)) = Some t.
Proof.
  intros -> H. cbn [Pd.str_split option_map Pd.str_get].
  apply nth_error_Some in H.
  destruct (nth_error (Py.split name) 1) as [t|]; [now exists t | easy].
Qed.

Lemma names_object (csv : list App.Listing) :
  Run.is_float64 (map App.Name csv) = false <->
  csv = [] \/ Spec.has_name csv.
Proof.
  rewrite is_float64_false. split; intros [H | H].
  - left. now apply map_eq_nil in H.
  - right. destruct H as [name H]. apply in_map_iff in H as (l & Hn & Hl).
    now exists l, name.
  - left. now subst.
  - right. destruct H as (l & name & Hl & Hn). exists name.
    apply in_map_iff. now exists l.
Qed.

Lemma seconds_object (csv : list App.Listing) :
  Run.is_float64
    (map (fun l => Pd.str_get 1 (Pd.str_split (App.Name l))) csv) = false <->
  csv = [] \/ Spec.has_second_token csv.
Proof.
  rewrite is_float64_false. split; intros [H | H].
  - left. now apply map_eq_nil in H.
  - right. destruct H as [t H]. apply in_map_iff in H as (l & Ht & Hl).
    destruct (second_token_iff l t Ht) as (name & Hn & Hlen).
    now exists l, name.
  - left. now subst.
  - right. destruct H as (l & name & Hl & Hn & Hlen).
    destruct (second_token_of l name Hn Hlen) as [t Ht]. exists t.
    apply in_map_iff. now exists l.
Qed.

Lemma second_token_has_name (csv : list App.Listing) :
  Spec.has_second_token csv -> Spec.has_name csv.
Proof. intros (l & name & Hl & Hn & _). now exists l, name. Qed.

Lemma has_name_rows (csv : list App.Listing) : Spec.has_name csv -> csv <> [].
Proof. intros (l & name & Hl & _) ->. exact Hl. Qed.

(** Lines 36-37 return the frame when the data have no row or some name
    has a second token. *)
Lemma cars_df_returns (csv : list App.Listing) (cars : list App.Car) :
  Run.cars_df csv = Run.Returned cars <->
  cars = App.cars_df csv /\ (csv = [] \/ Spec.has_second_token csv).
Proof.
  unfold Run.cars_df, Run.str_accessor, Run.add_text.
  destruct (Run.is_float64 (map App.Name csv)) eqn:E1; cbn [Run.bind].
  - split; [discriminate|]. intros [_ H].
    apply not_false_iff_true in E1. elim E1. apply names_object.
    destruct H as [H | H]; [now left | right].
    now apply second_token_has_name.
  - destruct (Run.is_float64
                (map (fun l => Pd.str_get 1 (Pd.str_split (App.Name l)))
                     csv)) eqn:E2; cbn [Run.bind].
    + split; [discriminate|]. intros [_ H].
      apply not_false_iff_true in E2. elim E2. now apply seconds_object.
    + apply seconds_object in E2. split.
      * intros [= <-]. now split.
      * now intros [-> _].
Qed.

(** Line 36 raises when the data have rows and no name. *)
Lemma cars_df_attribute_error (csv : list App.Listing) :
  Run.cars_df csv = Run.Raised Run.AttributeError <->
  csv <> [] /\ ~ Spec.has_name csv.
Proof.
  unfold Run.cars_df, Run.str_accessor, Run.add_text.
  destruct (Run.is_float64 (map App.Name csv)) eqn:E1; cbn [Run.bind].
  - apply not_false_iff_true in E1. rewrite names_object in E1.
    split; [intros _ | reflexivity]. split; intros H; apply E1; tauto.
  - apply names_object in E1.
    destruct (Run.is_float64
                (map (fun l => Pd.str_get 1 (Pd.str_split (App.Name l)))
                     csv)); cbn [Run.bind];
      (split; [discriminate | tauto]).
Qed.

(** Line 37 raises when the data have a name and none with a second
    token. *)
Lemma cars_df_type_error (csv : list App.Listing) :
  Run.cars_df csv = Run.Raised Run.TypeError <->
  Spec.has_name csv /\ ~ Spec.has_second_token csv.
Proof.
  unfold Run.cars_df, Run.str_accessor, Run.add_text.
  destruct (Run.is_float64 (map App.Name csv)) eqn:E1; cbn [Run.bind].
  - apply not_false_iff_true in E1. rewrite names_object in E1.
    split; [discriminate | tauto].
  - apply names_object in E1.
    destruct (Run.is_float64
                (map (fun l => Pd.str_get 1 (Pd.str_split (App.Name l)))
                     csv)) eqn:E2; cbn [Run.bind].
    + apply not_false_iff_true in E2. rewrite seconds_object in E2.
      split; [intros _ | reflexivity].
      destruct E1 as [E1 | E1]; [tauto|]. tauto.
    + split; [discriminate|]. apply seconds_object in E2.
      intros [Hn Hno]. apply has_name_rows in Hn. tauto.
Qed.

(** C4, amended.  For every listing whose name has fewer than three
    whitespace-delimited tokens, in a run in which lines 36-37 return
    the normalizer has its row, one per listing: the derived model is
    missing (no token is replaced by the empty text), and the derived
    brand is the first token when there is one and missing otherwise.
    Lines 36-37 return exactly when the data have no row or some name
    has a second token; on data with rows and no name line 36 raises
    AttributeError, and on data with a name but no second token line 37
    raises TypeError.  The two-token name "Toyota Corolla" alone gives
    the brand "Toyota" and a missing model; the one-token name "Toyota"
    alone raises TypeError. *)
Theorem model_of_short_name_is_missing :
  (forall (csv : list App.Listing) (cars : list App.Car) (c : App.Car)
          (name : string),
      Run.cars_df csv = Run.Returned cars ->
      In c cars ->
      App.Name (App.listing c) = Some name ->
      (List.length (Py.split name) < 3)%nat ->
      App.Model c = None /\ App.Brand c = hd_error (Py.split name))
  /\ (forall (csv : list App.Listing) (cars : list App.Car),
         Run.cars_df csv = Run.Returned cars ->
         map App.listing cars = csv)
  /\ (forall csv : list App.Listing,
         (exists cars, Run.cars_df csv = Run.Returned cars) <->
         csv = [] \/ Spec.has_second_token csv)
  /\ (forall csv : list App.Listing,
         Run.cars_df csv = Run.Raised Run.AttributeError <->
         csv <> [] /\ ~ Spec.has_name csv)
  /\ (forall csv : list App.Listing,
         Run.cars_df csv = Run.Raised Run.TypeError <->
         Spec.has_name csv /\ ~ Spec.has_second_token csv)
  /\ Run.cars_df [Ex.corolla]
     = Run.Returned [App.mkCar Ex.corolla (Some "Toyota"%string) None]
  /\ Run.cars_df [App.mkListing (Some "Toyota"%string) 2012 (Some 6%Q)
                                "Goa"%string]
     = Run.Raised Run.TypeError.
Proof.
  split; [|split; [|split; [|split; [|split; [|split]]]]].
  - intros csv cars c name Hrun Hc Hname Hlen.
    apply cars_df_returns in Hrun as [-> _].
    apply cars_df_In in Hc as (l & _ & ->).
    cbn [App.listing App.with_brand_model App.Brand App.Model] in *.
    rewrite Hname. cbn [Pd.str_split option_map Pd.str_get]. split.
    + destruct (Py.split name) as [|t0 [|t1 [|t2 rest]]]; cbn in Hlen;
        try lia; reflexivity.
    + now destruct (Py.split name).
  - intros csv cars Hrun. apply cars_df_returns in Hrun as [-> _].
    apply cars_df_listing.
  - intros csv. split.
    + intros [cars H]. now apply cars_df_returns in H.
    + intros H. exists (App.cars_df csv). now apply cars_df_returns.
  - apply cars_df_attribute_error.
  - apply cars_df_type_error.
  - reflexivity.
  - reflexivity.
Qed.

Lemma model_of_short_name_is_missing_witness :
  App.Model (App.with_brand_model Ex.corolla) = None
  /\ App.Brand (App.with_brand_model Ex.corolla) = Some "Toyota"%string.
Proof.
  apply (proj1 model_of_short_name_is_missing
               Ex.csv (App.cars_df Ex.csv) (App.with_brand_model Ex.corolla)
               "Toyota Corolla"%string).
  - reflexivity.
  - right; right; now left.
  - reflexivity.
  - vm_compute. lia.
Defined.

(** X2.  In a run in which lines 36-37 return, the brand of a row is
    missing exactly when its name is missing or blank, and its model
    exactly when its name is missing or has fewer than three tokens. *)
Theorem missing_brand_and_model
        (csv : list App.Listing) (cars : list App.Car) (c : App.Car) :
  Run.cars_df csv = Run.Returned cars ->
  In c cars ->
  (App.Brand c = None <->
   match App.Name (App.listing c) with
   | Some name => Spec.blank name = true
   | None => True
   end)
  /\ (App.Model c = None <->
      match App.Name (App.listing c) with
      | Some name => (List.length (Py.split name) < 3)%nat
      | None => True
      end).
Proof.
  intros Hrun Hc. apply cars_df_returns in Hrun as [-> _].
  apply cars_df_In in Hc as (l & _ & ->).
  cbn [App.with_brand_model App.Brand App.Model App.listing].
  destruct (App.Name l) as [name|]; cbn [Pd.str_split option_map Pd.str_get];
    [|now split].
  split.
  - split; intros H.
    + assert (E : Py.split name = [])
        by (destruct (Py.split name); [reflexivity | discriminate H]).
      now apply split_from_nil in E.
    + assert (E : Py.split name = []) by (now apply split_from_nil).
      now rewrite E.
  - destruct (Py.split name) as [|t0 [|t1 [|t2 rest]]]; cbn;
      split; intros H; try reflexivity; try discriminate; lia.
Qed.

Lemma missing_brand_and_model_witness :
  App.Model (App.with_brand_model Ex.corolla) = None.
Proof.
  apply (proj2 (proj2 (missing_brand_and_model
                         Ex.csv (App.cars_df Ex.csv)
                         (App.with_brand_model Ex.corolla)
                         eq_refl
                         (or_intror (or_intror (or_introl eq_refl)))))).
  vm_compute. lia.
Defined.

End RunFacts.

(** ** The script over the numeric library *)

Section LibraryFacts.
Local Open Scope list_scope.
Variable L : Num.lib.




Lemma gen_bar_locations (csv : list App.Listing) (b m : option string)
      (y : option Z) :
  map FBarRow.Location (Gen.df_avg_price_by_city_new L csv b m y)
  = map BarRow.Location (App.df_avg_price_by_city_new csv b m y).
Proof.
  unfold Gen.df_avg_price_by_city_new, App.df_avg_price_by_city_new,
    App.avg_price_by_city_new.
  rewrite !map_map. now apply map_ext.
Qed.

Lemma gen_bar_cities (csv : list App.Listing) (b m : option string)
      (y : option Z) :
  NoDup (map FBarRow.Location (Gen.df_avg_price_by_city_new L csv b m y))
  /\ forall loc,
      In loc (map FBarRow.Location (Gen.df_avg_price_by_city_new L csv b m y))
      <-> exists c, In c (App.cars_df_filtered csv b m y)
                    /\ App.Location (App.listing c) = loc.
Proof.
  rewrite gen_bar_locations. unfold App.df_avg_price_by_city_new.
  rewrite bar_locations. split.
  - apply sort_NoDup, unique_NoDup. intros a _. apply String.eqb_refl.
  - intros loc. rewrite sort_In.
    rewrite unique_In by (intros; apply String.eqb_eq).
    rewrite in_map_iff. split; intros (c & H1 & H2); exists c; auto.
Qed.

Lemma gen_bars_nil (csv : list App.Listing) (b m : option string)
      (y : option Z) :
  Gen.df_avg_price_by_city_new L csv b m y = [] <->
  App.cars_df_filtered csv b m y = [].
Proof.
  unfold Gen.df_avg_price_by_city_new, Pd.groupby. split.
  - intros E. apply map_eq_nil, map_eq_nil, sort_nil_iff, unique_nil_iff in E.
    rewrite keys_of_total in E. now apply map_eq_nil in E.
  - now intros ->.
Qed.

Lemma gen_top_5_sort (rows : list (FBarRow.t (Num.float L))) :
  Gen.top_5 L rows = firstn 5 (Pd.sort (Gen.by_avg L) rows).
Proof. reflexivity. Qed.

Lemma gen_sorted_by_avg (rows : list (FBarRow.t (Num.float L))) :
  StronglySorted (Gen.avg_order L) (Pd.sort (Gen.by_avg L) rows).
Proof.
  apply sorted_weaken with (R := Spec.not_after (Gen.by_avg L)).
  - intros a b H. now apply desc_before_false.
  - apply (sort_sorted (Gen.by_avg L)).
    + intros a b. apply desc_before_asym.
    + intros a b c. apply desc_before_negtrans.
Qed.

(** What [nlargest] returns of any rows. *)
Lemma gen_top_5_rows (rows : list (FBarRow.t (Num.float L))) :
  StronglySorted (Gen.avg_order L) (Gen.top_5 L rows)
  /\ List.length (Gen.top_5 L rows) = Nat.min 5 (List.length rows)
  /\ exists rest,
      Permutation rows (Gen.top_5 L rows ++ rest)
      /\ forall a b, In a (Gen.top_5 L rows) -> In b rest ->
                     Gen.avg_order L a b.
Proof.
  rewrite gen_top_5_sort.
  split; [apply firstn_sorted, gen_sorted_by_avg|].
  split; [now rewrite length_firstn, sort_length|].
  exists (skipn 5 (Pd.sort (Gen.by_avg L) rows)). split.
  - rewrite firstn_skipn. symmetry. apply sort_perm.
  - apply sorted_app_order. rewrite firstn_skipn. apply gen_sorted_by_avg.
Qed.

(** Line 108 returns when line 37 does and the data have a row. *)
Lemma gen_df_top_5_returns (csv : list App.Listing) (b m : option string)
      (y : option Z) (top : list (FBarRow.t (Num.float L))) :
  Gen.df_top_5 L csv b m y = Run.Returned top <->
  Spec.has_second_token csv
  /\ top = Gen.top_5 L (Gen.df_avg_price_by_city_new L csv b m y).
Proof.
  unfold Gen.df_top_5. destruct (Run.cars_df csv) as [cars|e] eqn:E;
    cbn [Run.bind].
  - apply cars_df_returns in E as [_ H].
    destruct csv as [|l csv]; cbn [Run.nlargest_dtype Run.bind].
    + split; [discriminate|]. intros [(l & n & [] & _) _].
    + split.
      * intros [= <-]. split; [|reflexivity].
        destruct H as [H | H]; [discriminate H | exact H].
      * now intros [_ ->].
  - split; [discriminate|]. intros [H _].
    assert (R : Run.cars_df csv = Run.Returned (App.cars_df csv))
      by (apply cars_df_returns; split; [reflexivity | now right]).
    congruence.
Qed.

End LibraryFacts.

(** On exact rationals the script over the library is [App]. *)
Lemma exact_city_rows (csv : list App.Listing) :
  map (fun r => CityRow.mk (FCityRow.Location r) (FCityRow.Latitude r)
                           (FCityRow.Longitude r) (FCityRow.Average_Price r)
                           (FCityRow.Price_in_thousands r)
                           (FCityRow.Price r))
      (Gen.df_avg_price_by_city Num.exact csv)
  = App.df_avg_price_by_city csv.
Proof.
  unfold Gen.df_avg_price_by_city, App.df_avg_price_by_city,
    App.avg_price_by_city.
  rewrite map_map. apply map_ext. intros [k g].
  unfold Gen.city_row, App.city_row, Gen.prices. cbn.
  now rewrite map_id.
Qed.

Lemma exact_bars (csv : list App.Listing) (b m : option string)
      (y : option Z) :
  map (fun r => BarRow.mk (FBarRow.Location r) (FBarRow.Average_Price r)
                          (FBarRow.Formatted_Price r) (FBarRow.Price_K r))
      (Gen.df_avg_price_by_city_new Num.exact csv b m y)
  = App.df_avg_price_by_city_new csv b m y.
Proof.
  unfold Gen.df_avg_price_by_city_new, App.df_avg_price_by_city_new,
    App.avg_price_by_city_new.
  rewrite map_map. apply map_ext. intros [k g].
  unfold Gen.bar_row, App.bar_row, Gen.prices. cbn.
  now rewrite map_id.
Qed.

Lemma exact_average (csv : list App.Listing) (b m : option string)
      (y : option Z) :
  Gen.average_price Num.exact csv b m y = App.average_price csv b m y
  /\ Gen.price_message Num.exact (Gen.average_price Num.exact csv b m y)
     = App.price_message (App.average_price csv b m y).
Proof.
  unfold Gen.price_message, Gen.displayed_price, Gen.average_price,
    App.price_message, App.displayed_price, App.average_price, Gen.prices.
  cbn [Num.exact Num.series_mean Num.of_csv Num.times Num.format_2f].
  now rewrite map_id.
Qed.

Section Library.
Local Open Scope list_scope.







(** C3, as the specification has it, fails on data without rows: there
    are fewer than five cities, and line 108 raises TypeError instead of
    returning none. *)
Lemma top_5_of_data_without_rows_raises :
  (forall (L : Num.lib) (b m : option string) (y : option Z),
      Gen.df_top_5 L [] b m y = Run.Raised Run.TypeError)
  /\ ~ (forall (L : Num.lib) (csv : list App.Listing) (b m : option string)
               (y : option Z),
           exists top,
             Gen.df_top_5 L csv b m y = Run.Returned top
             /\ List.length top
                = Nat.min 5 (List.length
                               (Gen.df_avg_price_by_city_new L csv b m y))).
Proof.
  split; [reflexivity|]. intros H.
  destruct (H Num.exact [] None None None) as (top & E & _).
  discriminate E.
Qed.

(** C3, amended.  Of every collection of per-city averages that is a
    frame of numbers, the top-cities operation returns rows of the
    collection in descending order of average price (NaN last), none of
    them below a row left out, and as many as min(5, number of rows).
    When line 108 returns, its result is that of the operation on the
    averages of the selection, which have one row per distinct city of
    the selection: fewer than five cities give that many rows.  It
    returns exactly when some name of the data has a second token, and
    on data without rows it raises TypeError. *)
Theorem top_cities_sorted_and_bounded (L : Num.lib) :
  (forall rows : list (FBarRow.t (Num.float L)),
      StronglySorted (Gen.avg_order L) (Gen.top_5 L rows)
      /\ List.length (Gen.top_5 L rows) = Nat.min 5 (List.length rows)
      /\ exists rest,
          Permutation rows (Gen.top_5 L rows ++ rest)
          /\ forall a b, In a (Gen.top_5 L rows) -> In b rest ->
                         Gen.avg_order L a b)
  /\ (forall (csv : list App.Listing) (b m : option string) (y : option Z)
             (top : list (FBarRow.t (Num.float L))),
         Gen.df_top_5 L csv b m y = Run.Returned top ->
         let bars := Gen.df_avg_price_by_city_new L csv b m y in
         top = Gen.top_5 L bars
         /\ StronglySorted (Gen.avg_order L) top
         /\ (exists rest,
                Permutation bars (top ++ rest)
                /\ forall a b, In a top -> In b rest -> Gen.avg_order L a b)
         /\ NoDup (map FBarRow.Location bars)
         /\ (forall loc,
                In loc (map FBarRow.Location bars) <->
                exists c, In c (App.cars_df_filtered csv b m y)
                          /\ App.Location (App.listing c) = loc)
         /\ List.length top
            = Nat.min 5 (List.length (map FBarRow.Location bars)))
  /\ (forall (csv : list App.Listing) (b m : option string) (y : option Z),
         (exists top, Gen.df_top_5 L csv b m y = Run.Returned top) <->
         Spec.has_second_token csv)
  /\ (forall (b m : option string) (y : option Z),
         Gen.df_top_5 L [] b m y = Run.Raised Run.TypeError).
Proof.
  split; [apply gen_top_5_rows|]. split; [|split; [|reflexivity]].
  - intros csv b m y top Hrun bars.
    apply gen_df_top_5_returns in Hrun as [_ ->]. fold bars.
    destruct (gen_top_5_rows L bars) as (Hs & Hlen & Hrest).
    destruct (gen_bar_cities L csv b m y) as [Hnd Hin].
    split; [reflexivity|]. split; [assumption|]. split; [assumption|].
    split; [assumption|]. split; [assumption|].
    now rewrite length_map.
  - intros csv b m y. split.
    + intros [top H]. now apply gen_df_top_5_returns in H.
    + intros H. eexists. apply gen_df_top_5_returns. now split.
Qed.

Lemma top_cities_sorted_and_bounded_witness :
  exists c, In c (App.cars_df_filtered Ex.csv (Some "Audi"%string)
                                       (Some "A4 New"%string) (Some 2013%Z))
            /\ App.Location (App.listing c) = "Delhi"%string.
Proof.
  pose proof (proj1 (proj2 (top_cities_sorted_and_bounded Num.exact))
                    Ex.csv (Some "Audi"%string) (Some "A4 New"%string)
                    (Some 2013%Z) _ eq_refl) as H.
  cbv zeta in H. destruct H as (_ & _ & _ & _ & H & _).
  apply (proj1 (H "Delhi"%string)). vm_compute. tauto.
Defined.

(** X11.  There is no bar exactly when the selection is empty, and when
    line 108 returns, nothing is in the top five exactly when the
    selection is empty. *)
Theorem no_bar_iff_empty_selection
        (L : Num.lib) (csv : list App.Listing) (b m : option string)
        (y : option Z) :
  (Gen.df_avg_price_by_city_new L csv b m y = [] <->
   App.cars_df_filtered csv b m y = [])
  /\ (forall top,
         Gen.df_top_5 L csv b m y = Run.Returned top ->
         (top = [] <-> App.cars_df_filtered csv b m y = [])).
Proof.
  split; [apply gen_bars_nil|]. intros top Hrun.
  apply gen_df_top_5_returns in Hrun as [_ ->].
  rewrite <- (gen_bars_nil L). rewrite gen_top_5_sort. split.
  - intros E. apply (f_equal (@List.length _)) in E.
    rewrite length_firstn, sort_length in E.
    destruct (Gen.df_avg_price_by_city_new L csv b m y); [reflexivity|].
    cbn in E. lia.
  - now intros ->.
Qed.

Lemma no_bar_iff_empty_selection_witness :
  Gen.top_5 Num.exact
            (Gen.df_avg_price_by_city_new
               Num.exact Ex.csv (Some "Maruti"%string)
               (Some "Wagon R"%string) (Some 2016%Z)) = [].
Proof.
  apply (proj2 (proj2 (no_bar_iff_empty_selection
                         Num.exact Ex.csv (Some "Maruti"%string)
                         (Some "Wagon R"%string) (Some 2016%Z))
                      _ eq_refl)).
  reflexivity.
Defined.

End Library.

(** ** The worked examples in exact arithmetic *)

Section ExactExamples.
Local Open Scope list_scope.

Example mumbai_average_in_exact_arithmetic :
  Gen.df_avg_price_by_city
    Num.exact
    [ App.mkListing None 2015 (Some 4%Q) "Mumbai";
      App.mkListing None 2016 (Some 6%Q) "Mumbai" ]
  = [ FCityRow.mk "Mumbai" 19.0760%Q 72.8777%Q (Some 5%Q) (Some 500%Q)
                  "500.0K"%string ].
Proof. now vm_compute. Qed.

Example wagon_r_average_in_exact_arithmetic :
  Gen.average_price Num.exact Ex.wagon_rs (Some "Maruti"%string)
                    (Some "Wagon R"%string) (Some 2015%Z) = Some 5%Q
  /\ Gen.displayed_price Num.exact (Some 5%Q) = Some 500000%Q
  /\ Gen.price_message Num.exact (Some 5%Q)
     = "**The average price of the selected car is: 500000.00 INR**"%string.
Proof. now vm_compute. Qed.

Example delhi_labels_in_exact_arithmetic :
  map (fun r => (FBarRow.Location r, FBarRow.Price_K r))
      (Gen.df_avg_price_by_city_new Num.exact [Ex.a4_delhi]
                                    (Some "Audi"%string)
                                    (Some "A4 New"%string) (Some 2013%Z))
  = [("Delhi"%string, "123.12K"%string)]
  /\ map (fun r => (FCityRow.Location r, FCityRow.Price r))
         (Gen.df_avg_price_by_city Num.exact [Ex.a4_delhi])
     = [("Delhi"%string, "123.1K"%string)].
Proof. now vm_compute. Qed.

End ExactExamples.
